(** * tools-llm: the booking agent of [main.ts]

    A shallow embedding of the three mock tools, the tool dispatcher and the
    conversation orchestrator, and the properties the specification states
    about them.

    JavaScript numbers are IEEE 754 binary64 values: they are modelled with
    the executable specification of the Standard Library ([spec_float],
    [SFmul] at precision 53 and maximal exponent 1024), so every product
    below is rounded the way the engine rounds it. *)

From Stdlib Require Import ZArith Lia Bool List.
From Stdlib Require Import Floats.SpecFloat.
From stdpp Require Import base option list strings pretty.

Set Warnings "-register-all".

Local Open Scope Z_scope.
Local Open Scope string_scope.

(** ** JavaScript numbers *)

Module Number.

Definition prec : Z := 53.
Definition emax : Z := 1024.

Definition number : Type := spec_float.

(** The values a binary64 number can take: the mantissa of a finite one is
    canonical and its exponent in range. *)
Definition is_double (x : number) : Prop := valid_binary prec emax x = true.

Definition mul (x y : number) : number := SFmul prec emax x y.

Definition NaN : number := S754_nan.
Definition pos_zero : number := S754_zero false.

(** The number an integer literal denotes: the integer rounded to the
    nearest binary64 value. *)
Definition of_Z (n : Z) : number := binary_normalize prec emax n 0 false.

(** [m * 2^e] for a literal with a binary fraction. *)
Definition of_dyadic (m e : Z) : number := binary_normalize prec emax m e false.

(** The integer a number is exactly equal to, when there is one. *)
Definition exact_Z (x : number) : option Z :=
  match x with
  | S754_zero _ => Some 0
  | S754_finite s m e =>
      let v := if s then Zneg m else Zpos m in
      match e with
      | Zneg p =>
          if Z.eqb (Z.modulo v (Z.pow 2 (Zpos p))) 0
          then Some (Z.div v (Z.pow 2 (Zpos p))) else None
      | _ => Some (v * Z.pow 2 e)
      end
  | _ => None
  end.

End Number.

Import Number.

(** ** JavaScript values

    What [JSON.parse] can return, and [undefined] for a property that is
    not there. An object keeps its properties in insertion order. *)

Inductive value : Type :=
| VUndefined
| VNull
| VBool (b : bool)
| VNumber (x : number)
| VString (s : string)
| VArray (elems : list value)
| VObject (props : list (string * value)).

(** [v === "s"] against a string literal: true only for the same string. *)
Definition strict_eq_string (v : value) (s : string) : bool :=
  match v with
  | VString t => String.eqb t s
  | _ => false
  end.

(** [o.k] for an own property of an object built by [JSON.parse]. *)
Fixpoint own_property (props : list (string * value)) (k : string) : value :=
  match props with
  | [] => VUndefined
  | (k', v) :: rest => if String.eqb k' k then v else own_property rest k
  end.

(** ** Errors and the outcome of a call that can throw *)

Inductive exn : Type :=
| Error (message : string)      (* [new Error(message)] *)
| TypeError                     (* property read on [null] or [undefined] *)
| SyntaxError                   (* [JSON.parse] on a malformed payload *)
| APIError.                     (* a failed request to the model endpoint *)

Inductive outcome (A : Type) : Type :=
| Return (a : A)
| Throw (e : exn).
Arguments Return {A} a.
Arguments Throw {A} e.

(** [args.k]: reading a property of [null] or [undefined] throws; the
    parameter names read by the dispatcher are no property of a boxed
    primitive or of an array, so there the read gives [undefined]. *)
Definition get_property (args : value) (k : string) : outcome value :=
  match args with
  | VUndefined | VNull => Throw TypeError
  | VObject props => Return (own_property props k)
  | _ => Return VUndefined
  end.

Definition bind_outcome {A B : Type} (o : outcome A) (k : A -> outcome B)
  : outcome B :=
  match o with
  | Return a => k a
  | Throw e => Throw e
  end.

Definition map_outcome {A B : Type} (f : A -> B) (o : outcome A) : outcome B :=
  bind_outcome o (fun a => Return (f a)).

(** ** The tool implementations *)

Section Tools.

(** The engine's conversions, which are no code of this repository:
    [StringToNumber] of the language specification, and the string an
    array or an object converts to ([Array.prototype.toString],
    [Object.prototype.toString]). The second is [None] when the conversion
    throws a [TypeError]: it does for an object that has a [toString]
    property of its own, which in a value parsed from JSON is never
    callable, and for an array that holds such an object. *)
Variable StringToNumber : string -> number.
Variable ObjectToString : value -> option string.

(** [ToNumber], applied by [*] to each operand. *)
Definition ToNumber (v : value) : outcome number :=
  match v with
  | VUndefined => Return NaN
  | VNull => Return pos_zero
  | VBool true => Return (of_Z 1)
  | VBool false => Return pos_zero
  | VNumber x => Return x
  | VString s => Return (StringToNumber s)
  | VArray _ | VObject _ =>
      match ObjectToString v with
      | Some s => Return (StringToNumber s)
      | None => Throw TypeError
      end
  end.

Record FlightSchedule : Type := {
  fs_origin : value;
  fs_destination : value;
  fs_tripType : value;
  totalFlightTimeHours : number;
  totalCostUSD : number;
}.

Definition oneWayDurationHours : number := of_dyadic 11 (-1).   (* 5.5 *)
Definition oneWayCost : number := of_Z 420.

Definition getFlightSchedule (origin destination tripType : value)
  : FlightSchedule :=
  {| fs_origin := origin;
     fs_destination := destination;
     fs_tripType := tripType;
     totalFlightTimeHours :=
       if strict_eq_string tripType "round-trip"
       then mul oneWayDurationHours (of_Z 2) else oneWayDurationHours;
     totalCostUSD :=
       if strict_eq_string tripType "round-trip"
       then mul oneWayCost (of_Z 2) else oneWayCost |}.

Record HotelBooking : Type := {
  hb_city : value;
  hb_nights : value;
  costPerNightUSD : number;
  totalHotelCostUSD : number;
}.

Definition getHotelBooking (city nights : value) : outcome HotelBooking :=
  let costPerNightUSD := of_Z 120 in
  bind_outcome (ToNumber nights) (fun nights_number =>
  Return
    {| hb_city := city;
       hb_nights := nights;
       costPerNightUSD := costPerNightUSD;
       totalHotelCostUSD := mul costPerNightUSD nights_number |}).

Record CurrencyConversion : Type := {
  cc_from : value;
  cc_to : value;
  originalAmount : value;
  convertedAmount : number;
}.

Definition convertCurrency (amount from to : value)
  : outcome CurrencyConversion :=
  let rate := of_Z 1 in
  bind_outcome (ToNumber amount) (fun amount_number =>
  Return
    {| cc_from := from;
       cc_to := to;
       originalAmount := amount;
       convertedAmount := mul amount_number rate |}).

(** ** The tool dispatcher *)

Inductive tool_result : Type :=
| FlightResult (r : FlightSchedule)
| HotelResult (r : HotelBooking)
| CurrencyResult (r : CurrencyConversion).

Definition executeTool (name : string) (args : value) : outcome tool_result :=
  if String.eqb name "get_flight_schedule" then
    bind_outcome (get_property args "origin") (fun origin =>
    bind_outcome (get_property args "destination") (fun destination =>
    bind_outcome (get_property args "tripType") (fun tripType =>
    Return (FlightResult (getFlightSchedule origin destination tripType)))))
  else if String.eqb name "get_hotel_booking" then
    bind_outcome (get_property args "city") (fun city =>
    bind_outcome (get_property args "nights") (fun nights =>
    map_outcome HotelResult (getHotelBooking city nights)))
  else if String.eqb name "convert_currency" then
    bind_outcome (get_property args "amount") (fun amount =>
    bind_outcome (get_property args "from") (fun from =>
    bind_outcome (get_property args "to") (fun to =>
    map_outcome CurrencyResult (convertCurrency amount from to))))
  else Throw (Error ("Unknown tool: " ++ name)).

End Tools.

(** ** The conversation and the model endpoint *)

Record function_call : Type := {
  fc_name : string;
  fc_arguments : string;          (* the JSON-encoded argument payload *)
}.

Record tool_call : Type := {
  tc_id : string;
  tc_type : string;
  tc_function : option function_call;
}.

Record response_message : Type := {
  rm_content : option string;                 (* [string | null] *)
  rm_tool_calls : option (list tool_call);    (* absent, or an array *)
}.

Record choice : Type := {
  ch_message : response_message;
  ch_finish_reason : string;
}.

Record response : Type := { choices : list choice }.

Inductive message : Type :=
| UserMessage (content : string)
| AssistantMessage (m : response_message)
| ToolMessage (tool_call_id : string) (content : string).

(** The Tool Catalog. *)
Record parameter : Type := {
  p_name : string;
  p_type : string;
  p_enum : option (list string);
}.

Record tool_descriptor : Type := {
  td_type : string;
  td_name : string;
  td_description : string;
  td_properties : list parameter;
  td_required : list string;
}.

Definition tools : list tool_descriptor :=
  [ {| td_type := "function";
       td_name := "get_flight_schedule";
       td_description := "Returns flight schedule and pricing in USD";
       td_properties :=
         [ {| p_name := "origin"; p_type := "string"; p_enum := None |};
           {| p_name := "destination"; p_type := "string"; p_enum := None |};
           {| p_name := "tripType"; p_type := "string";
              p_enum := Some ["one-way"; "round-trip"] |} ];
       td_required := ["origin"; "destination"; "tripType"] |};
    {| td_type := "function";
       td_name := "get_hotel_booking";
       td_description := "Returns hotel cost per night in USD";
       td_properties :=
         [ {| p_name := "city"; p_type := "string"; p_enum := None |};
           {| p_name := "nights"; p_type := "number"; p_enum := None |} ];
       td_required := ["city"; "nights"] |};
    {| td_type := "function";
       td_name := "convert_currency";
       td_description := "Converts an amount from one currency to another";
       td_properties :=
         [ {| p_name := "amount"; p_type := "number"; p_enum := None |};
           {| p_name := "from"; p_type := "string"; p_enum := None |};
           {| p_name := "to"; p_type := "string"; p_enum := None |} ];
       td_required := ["amount"; "from"; "to"] |} ].

Record request : Type := {
  req_model : string;
  req_messages : list message;
  req_tools : option (list tool_descriptor);
  req_tool_choice : option string;
}.

Definition MODEL_NAME : string := "nvidia/nemotron-3-nano-30b-a3b:free".
Definition SYNTHESIS_MODEL : string := "openai/gpt-4o-mini".

Definition userQuery : string :=
  "I'm taking a flight from Lagos to Nairobi for a conference. I would like to know the total flight time back and forth, and the total cost of logistics for this conference if I'm staying for three days.".

(** ** Effects of a run

    What a run does to the outside, in the order it does it: requests to the
    model endpoint, calls of the dispatcher, lines written to the console. *)

Inductive event : Type :=
| ModelCall (r : request)
| ToolExecution (name : string) (args : value)
| ConsoleLog (items : list value).

Record state : Type := {
  messages : list message;      (* the [messages] array *)
  trace : list event;
}.

(** A computation that reads and extends the state and may throw; the state
    reached when it throws is kept. *)
Definition M (A : Type) : Type := state -> state * outcome A.

Definition ret {A : Type} (a : A) : M A := fun st => (st, Return a).

Definition bind {A B : Type} (m : M A) (k : A -> M B) : M B :=
  fun st =>
    match m st with
    | (st', Return a) => k a st'
    | (st', Throw e) => (st', Throw e)
    end.

Declare Scope agent_scope.
Delimit Scope agent_scope with agent.
Notation "x <- m ;; k" := (bind m (fun x => k))
  (at level 100, m at next level, right associativity) : agent_scope.
Notation "m ;; k" := (bind m (fun _ => k))
  (at level 100, right associativity) : agent_scope.

Definition lift {A : Type} (o : outcome A) : M A := fun st => (st, o).

Definition emit (e : event) : M unit :=
  fun st => ({| messages := messages st; trace := trace st ++ [e] |}, Return tt).

(** [messages.push(m)] *)
Definition push (m : message) : M unit :=
  fun st => ({| messages := messages st ++ [m]; trace := trace st |}, Return tt).

Definition get_messages : M (list message) :=
  fun st => (st, Return (messages st)).

(** [console.log(...items)] *)
Definition console_log (items : list value) : M unit := emit (ConsoleLog items).

Definition newline : string := String (Ascii.ascii_of_nat 10) EmptyString.

Definition content_value (c : option string) : value :=
  match c with
  | Some s => VString s
  | None => VNull
  end.

(** [response.choices[0]]: reading [.message] of a missing first choice
    throws. *)
Definition first_choice (r : response) : outcome choice :=
  match choices r with
  | c :: _ => Return c
  | [] => Throw TypeError
  end.

Section Agent.

Variable StringToNumber : string -> number.
Variable ObjectToString : value -> option string.

(** [JSON.parse], [None] when it throws a [SyntaxError], and
    [JSON.stringify]. *)
Variable JSON_parse : string -> option value.
Variable JSON_stringify : value -> string.

(** [openai.chat.completions.create]: the reply of the endpoint to a
    request, or its failure. *)
Variable create : request -> outcome response.

Local Open Scope agent_scope.

(** The object a tool returns, with its properties in source order. *)
Definition result_value (r : tool_result) : value :=
  match r with
  | FlightResult f =>
      VObject [ ("origin", fs_origin f);
                ("destination", fs_destination f);
                ("tripType", fs_tripType f);
                ("totalFlightTimeHours", VNumber (totalFlightTimeHours f));
                ("totalCostUSD", VNumber (totalCostUSD f)) ]
  | HotelResult h =>
      VObject [ ("city", hb_city h);
                ("nights", hb_nights h);
                ("costPerNightUSD", VNumber (costPerNightUSD h));
                ("totalHotelCostUSD", VNumber (totalHotelCostUSD h)) ]
  | CurrencyResult c =>
      VObject [ ("from", cc_from c);
                ("to", cc_to c);
                ("originalAmount", originalAmount c);
                ("convertedAmount", VNumber (convertedAmount c)) ]
  end.

Definition parse (payload : string) : M value :=
  lift (match JSON_parse payload with
        | Some v => Return v
        | None => Throw SyntaxError
        end).

(** [await executeTool(name, args)] *)
Definition await_executeTool (name : string) (args : value) : M tool_result :=
  emit (ToolExecution name args) ;;
  lift (executeTool StringToNumber ObjectToString name args).

(** [await openai.chat.completions.create({...})] *)
Definition await_create (r : request) : M response :=
  emit (ModelCall r) ;;
  lift (create r).

(** The guard of the loop body:
    [call.type !== 'function' || !call.function]. *)
Definition skipped (call : tool_call) : bool :=
  negb (String.eqb (tc_type call) "function")
  || match tc_function call with
     | Some _ => false
     | None => true
     end.

(** One iteration of [for (const call of responseMessage.tool_calls)]. *)
Definition process_call (call : tool_call) : M unit :=
  if skipped call then ret tt                              (* [continue] *)
  else
    match tc_function call with
    | None => ret tt                  (* excluded by the guard *)
    | Some f =>
        console_log [VString (newline ++ "Calling: " ++ fc_name f)] ;;
        shown <- parse (fc_arguments f) ;;
        console_log [VString "Arguments:"; shown] ;;
        args <- parse (fc_arguments f) ;;
        result <- await_executeTool (fc_name f) args ;;
        console_log [VString "Result:"; result_value result] ;;
        push (ToolMessage (tc_id call) (JSON_stringify (result_value result)))
    end.

Fixpoint process_calls (calls : list tool_call) : M unit :=
  match calls with
  | [] => ret tt
  | call :: rest => process_call call ;; process_calls rest
  end.

Definition initial_state : state :=
  {| messages := [UserMessage userQuery]; trace := [] |}.

Definition agent_body : M unit :=
  conversation <- get_messages ;;
  response1 <- await_create
    {| req_model := MODEL_NAME;
       req_messages := conversation;
       req_tools := Some tools;
       req_tool_choice := Some "auto" |} ;;
  first <- lift (first_choice response1) ;;
  let responseMessage := ch_message first in
  console_log [VString "Model Response:"] ;;
  console_log [VString "Finish Reason:"; VString (ch_finish_reason first)] ;;
  push (AssistantMessage responseMessage) ;;
  match rm_tool_calls responseMessage with
  | Some tool_calls =>
      console_log [VString (newline ++ "Tools Called:")] ;;
      process_calls tool_calls ;;
      (* Final reasoning pass *)
      conversation <- get_messages ;;
      response2 <- await_create
        {| req_model := SYNTHESIS_MODEL;
           req_messages := conversation;
           req_tools := None;
           req_tool_choice := None |} ;;
      console_log [VString (newline ++ "Final Answer:" ++ newline)] ;;
      final <- lift (first_choice response2) ;;
      console_log [content_value (rm_content (ch_message final))]
  | None =>
      (* No tools were called, just print the response *)
      console_log [VString "Direct Response:"] ;;
      console_log [content_value (rm_content responseMessage)]
  end.

Definition runBookingAgent : state * outcome unit := agent_body initial_state.

(** *** The phases of a run *)

(** The request of the first pass. *)
Definition first_request : request :=
  {| req_model := MODEL_NAME;
     req_messages := [UserMessage userQuery];
     req_tools := Some tools;
     req_tool_choice := Some "auto" |}.

(** The first line an iteration writes for the invocation of [f]. *)
Definition calling (f : function_call) : event :=
  ConsoleLog [VString (newline ++ "Calling: " ++ fc_name f)].

(** The state in which the first reply has been received and appended. *)
Definition after_first_reply (first : choice) : state :=
  {| messages := [UserMessage userQuery; AssistantMessage (ch_message first)];
     trace := [ModelCall first_request;
               ConsoleLog [VString "Model Response:"];
               ConsoleLog [VString "Finish Reason:";
                           VString (ch_finish_reason first)]] |}.

(** The request of the second pass, for the conversation it is sent. *)
Definition second_request (conversation : list message) : request :=
  {| req_model := SYNTHESIS_MODEL;
     req_messages := conversation;
     req_tools := None;
     req_tool_choice := None |}.

(** The second pass, from the state the loop has left. *)
Definition second_pass (st : state) : state * outcome unit :=
  let called :=
    {| messages := messages st;
       trace := trace st ++ [ModelCall (second_request (messages st))] |} in
  match create (second_request (messages st)) with
  | Throw e => (called, Throw e)
  | Return response2 =>
      let announced :=
        {| messages := messages st;
           trace := trace called ++
             [ConsoleLog [VString (newline ++ "Final Answer:" ++ newline)]] |} in
      match first_choice response2 with
      | Throw e => (announced, Throw e)
      | Return final =>
          ({| messages := messages st;
              trace := trace announced ++
                [ConsoleLog [content_value (rm_content (ch_message final))]] |},
           Return tt)
      end
  end.

(** *** Observations on a run *)

(** An entry the loop does not skip. *)
Definition invocable (call : tool_call) : bool := negb (skipped call).

(** An entry the loop gets past: it is skipped, or its payload parses and
    the dispatcher returns a result for it. *)
Definition processable (call : tool_call) : bool :=
  match tc_function call with
  | None => true
  | Some f =>
      skipped call
      || match JSON_parse (fc_arguments f) with
         | None => false
         | Some args =>
             match executeTool StringToNumber ObjectToString (fc_name f) args with
             | Return _ => true
             | Throw _ => false
             end
         end
  end.

(** [m] is the tool-result message of the invocation request [call]: it
    carries the identifier of [call] and the serialized result of the
    tool named by [call] on the parsed payload. *)
Definition answers (call : tool_call) (m : message) : Prop :=
  exists f args result,
    tc_function call = Some f /\
    JSON_parse (fc_arguments f) = Some args /\
    executeTool StringToNumber ObjectToString (fc_name f) args = Return result /\
    m = ToolMessage (tc_id call) (JSON_stringify (result_value result)).

(** The dispatcher call [ex] is the one made for the request [call]. *)
Definition executes (call : tool_call) (ex : string * value) : Prop :=
  exists f,
    tc_function call = Some f /\
    JSON_parse (fc_arguments f) = Some (snd ex) /\
    fst ex = fc_name f.

End Agent.

(** The requests sent to the model endpoint, in order. *)
Definition model_calls (tr : list event) : list request :=
  omap (fun e => match e with ModelCall r => Some r | _ => None end) tr.

(** The calls of the dispatcher, in order. *)
Definition tool_executions (tr : list event) : list (string * value) :=
  omap (fun e => match e with ToolExecution n a => Some (n, a) | _ => None end) tr.

(** The lines written to the console, in order; the last one is what the
    run surfaces. *)
Definition console_lines (tr : list event) : list (list value) :=
  omap (fun e => match e with ConsoleLog items => Some items | _ => None end) tr.

Definition final_output (tr : list event) : option (list value) :=
  last (console_lines tr).

(** The identifiers of the invocation requests a conversation holds. *)
Definition request_ids (conversation : list message) : list string :=
  flat_map (fun m => match m with
                     | AssistantMessage rm =>
                         map tc_id (default [] (rm_tool_calls rm))
                     | _ => []
                     end) conversation.

(** The identifiers of the tool-result messages a conversation holds. *)
Definition tool_result_ids (conversation : list message) : list string :=
  omap (fun m => match m with ToolMessage id _ => Some id | _ => None end)
       conversation.

(** How many of the identifiers [ids] are [id]. *)
Definition occurrences (id : string) (ids : list string) : nat :=
  length (filter (fun x => x = id) ids).

(** ** A run to test with

    The end-to-end scenario of the specification: the selection model asks
    for the round trip from Lagos to Nairobi and for three nights in
    Nairobi, the synthesis model answers. The engine functions are given
    for the values of this scenario only. *)

Module Scenario.

Definition quote : string := String (Ascii.ascii_of_nat 34) EmptyString.

Definition quoted (s : string) : string := quote +:+ s +:+ quote.

Definition flight_payload : string :=
  "{" +:+ quoted "origin" +:+ ":" +:+ quoted "Lagos" +:+ ","
      +:+ quoted "destination" +:+ ":" +:+ quoted "Nairobi" +:+ ","
      +:+ quoted "tripType" +:+ ":" +:+ quoted "round-trip" +:+ "}".

Definition hotel_payload : string :=
  "{" +:+ quoted "city" +:+ ":" +:+ quoted "Nairobi" +:+ ","
      +:+ quoted "nights" +:+ ":3}".

(** The object parsed from [{"toString":null}]. *)
Definition unconvertible : value := VObject [("toString", VNull)].

Definition stubborn_payload : string :=
  "{" +:+ quoted "nights" +:+ ":{" +:+ quoted "toString" +:+ ":null}}".

(** [JSON.parse] on the payloads of the scenario; anything else is taken
    as malformed. *)
Definition JSON_parse (payload : string) : option value :=
  if String.eqb payload stubborn_payload then
    Some (VObject [("nights", unconvertible)])
  else if String.eqb payload flight_payload then
    Some (VObject [("origin", VString "Lagos");
                   ("destination", VString "Nairobi");
                   ("tripType", VString "round-trip")])
  else if String.eqb payload hotel_payload then
    Some (VObject [("city", VString "Nairobi");
                   ("nights", VNumber (of_Z 3))])
  else None.

(** [JSON.stringify] on an object whose properties are strings and
    integers. *)
Definition stringify_property (v : value) : string :=
  match v with
  | VString s => quoted s
  | VNumber x =>
      match exact_Z x with
      | Some n => pretty n
      | None => "null"
      end
  | _ => "null"
  end.

Definition JSON_stringify (v : value) : string :=
  match v with
  | VObject props =>
      "{" +:+ String.concat ","
                (map (fun kv => quoted (fst kv) +:+ ":" +:+ stringify_property (snd kv))
                     props)
          +:+ "}"
  | _ => stringify_property v
  end.

(** No string and no array is multiplied in the scenario. An object with
    a [toString] property of its own cannot be converted; any other object
    converts to the string of [Object.prototype.toString]. *)
Definition StringToNumber (s : string) : number := NaN.

Definition ObjectToString (v : value) : option string :=
  match v with
  | VObject props =>
      if existsb (fun kv => String.eqb (fst kv) "toString") props
      then None else Some "[object Object]"
  | _ => Some ""
  end.

Definition flight_call : tool_call :=
  {| tc_id := "call_1"; tc_type := "function";
     tc_function := Some {| fc_name := "get_flight_schedule";
                            fc_arguments := flight_payload |} |}.

Definition hotel_call : tool_call :=
  {| tc_id := "call_2"; tc_type := "function";
     tc_function := Some {| fc_name := "get_hotel_booking";
                            fc_arguments := hotel_payload |} |}.

(** An entry of another type, without a [function] field. *)
Definition custom_call : tool_call :=
  {| tc_id := "call_3"; tc_type := "custom"; tc_function := None |}.

(** A second request that carries the identifier of [flight_call]. *)
Definition twin_call : tool_call :=
  {| tc_id := "call_1"; tc_type := "function";
     tc_function := Some {| fc_name := "get_hotel_booking";
                            fc_arguments := hotel_payload |} |}.

(** A hotel request whose [nights] cannot be converted to a number. *)
Definition stubborn_call : tool_call :=
  {| tc_id := "call_5"; tc_type := "function";
     tc_function := Some {| fc_name := "get_hotel_booking";
                            fc_arguments := stubborn_payload |} |}.

(** A request for a tool that is not registered. *)
Definition car_call : tool_call :=
  {| tc_id := "call_4"; tc_type := "function";
     tc_function := Some {| fc_name := "book_car";
                            fc_arguments := hotel_payload |} |}.

Definition answer : string :=
  "Your round-trip flight will take 11 hours total and cost $840.".

(** The reply of the selection model, which requests [calls], and the
    reply of the synthesis model. *)
Definition selection (calls : option (list tool_call)) : choice :=
  {| ch_message := {| rm_content := Some "Let me look that up.";
                      rm_tool_calls := calls |};
     ch_finish_reason := "tool_calls" |}.

Definition synthesis : choice :=
  {| ch_message := {| rm_content := Some answer; rm_tool_calls := None |};
     ch_finish_reason := "stop" |}.

Definition endpoint (calls : option (list tool_call)) (r : request)
  : outcome response :=
  if String.eqb (req_model r) MODEL_NAME
  then Return {| choices := [selection calls] |}
  else Return {| choices := [synthesis] |}.

Definition run (calls : option (list tool_call)) : state * outcome unit :=
  runBookingAgent StringToNumber ObjectToString JSON_parse JSON_stringify
    (endpoint calls).

(** A number of nights whose cost is not a binary64 number. *)
Definition many_nights : Z := 600479950316067.

End Scenario.

Local Open Scope list_scope.

(** * Facts on binary64 products *)

Module NumberFacts.

Lemma iter_pos_nat {A : Type} (f : A -> A) (p : positive) (x : A) :
  SpecFloat.iter_pos f p x = Nat.iter (Pos.to_nat p) f x.
Proof.
  revert x. induction p as [p IH | p IH |]; intros x.
  - rewrite Pos2Nat.inj_xI. cbn [SpecFloat.iter_pos]. rewrite !IH.
    replace (S (2 * Pos.to_nat p))%nat with (Pos.to_nat p + S (Pos.to_nat p))%nat by lia.
    rewrite Nat.iter_add, Nat.iter_succ_r. reflexivity.
  - rewrite Pos2Nat.inj_xO. cbn [SpecFloat.iter_pos]. rewrite !IH.
    replace (2 * Pos.to_nat p)%nat with (Pos.to_nat p + Pos.to_nat p)%nat by lia.
    rewrite Nat.iter_add. reflexivity.
  - reflexivity.
Qed.

Lemma shr_1_shifted (k : nat) (q : positive) :
  Nat.iter k shr_1 (Build_shr_record (Zpos q * 2 ^ Z.of_nat k) false false)
  = Build_shr_record (Zpos q) false false.
Proof.
  induction k as [| k IH].
  - simpl. rewrite Z.mul_1_r. reflexivity.
  - rewrite Nat.iter_succ_r.
    replace (Zpos q * 2 ^ Z.of_nat (S k))
      with (Zpos (Z.to_pos (Zpos q * 2 ^ Z.of_nat k))~0).
    + simpl shr_1. rewrite Z2Pos.id by lia. exact IH.
    + rewrite Pos2Z.inj_xO, Z2Pos.id by lia.
      rewrite Nat2Z.inj_succ, Z.pow_succ_r by lia. ring.
Qed.

Lemma digits2_log2 (p : positive) :
  Zpos (digits2_pos p) = Z.log2 (Zpos p) + 1.
Proof.
  induction p as [p IH | p IH |]; simpl digits2_pos.
  - rewrite Pos2Z.inj_succ, IH, Pos2Z.inj_xI, Z.log2_succ_double by lia. lia.
  - rewrite Pos2Z.inj_succ, IH, Pos2Z.inj_xO, Z.log2_double by lia. lia.
  - reflexivity.
Qed.

Lemma digits2_shifted (m q : positive) (k : Z) :
  0 <= k -> Zpos m = Zpos q * 2 ^ k ->
  Zpos (digits2_pos m) = Zpos (digits2_pos q) + k.
Proof.
  intros Hk Hm. rewrite !digits2_log2, Hm, Z.log2_mul_pow2 by lia. lia.
Qed.

(** A product that fits the format is not rounded. *)
Lemma round_exact (s : bool) (m q : positive) (e k : Z) :
  0 <= k -> Zpos m = Zpos q * 2 ^ k ->
  bounded prec emax q (e + k) = true ->
  binary_round_aux prec emax s (Zpos m) e loc_Exact = S754_finite s q (e + k).
Proof.
  intros Hk Hm Hb.
  apply andb_true_iff in Hb as [Hc He].
  unfold canonical_mantissa in Hc. apply Z.eqb_eq in Hc.
  apply Z.leb_le in He.
  assert (Hd := digits2_shifted m q k Hk Hm).
  assert (H1 : shr_fexp prec emax (Zpos m) e loc_Exact
               = (Build_shr_record (Zpos q) false false, e + k)).
  { unfold shr_fexp. simpl Zdigits2. rewrite Hd.
    replace (Zpos (digits2_pos q) + k + e) with (Zpos (digits2_pos q) + (e + k)) by lia.
    rewrite Hc. replace (e + k - e) with k by lia.
    simpl shr_record_of_loc. unfold shr.
    destruct k as [| kp | kp]; [| | lia].
    - rewrite Z.pow_0_r, Z.mul_1_r in Hm. inversion Hm; subst.
      rewrite Z.add_0_r. reflexivity.
    - rewrite iter_pos_nat, Hm, <- (positive_nat_Z kp) at 1.
      rewrite shr_1_shifted. reflexivity. }
  assert (H2 : shr_fexp prec emax (Zpos q) (e + k) loc_Exact
               = (Build_shr_record (Zpos q) false false, e + k)).
  { unfold shr_fexp. simpl Zdigits2. rewrite Hc, Z.sub_diag. reflexivity. }
  unfold binary_round_aux. rewrite H1. simpl round_nearest_even.
  rewrite H2. simpl shr_m.
  apply Z.leb_le in He. rewrite He. reflexivity.
Qed.

Lemma Zpos_to_pos_shift (r : positive) (k : Z) :
  0 <= k -> Zpos (Z.to_pos (Zpos r * 2 ^ k)) = Zpos r * 2 ^ k.
Proof.
  intros Hk. rewrite Z2Pos.id; [reflexivity |].
  apply Z.mul_pos_pos; [lia | apply Z.pow_pos_nonneg; lia].
Qed.

Lemma digits2_bounds (p : positive) (b : Z) :
  0 <= b -> Zpos p < 2 ^ b -> 1 <= Zpos (digits2_pos p) <= b.
Proof.
  intros Hb Hp. rewrite digits2_log2.
  pose proof (Z.log2_nonneg (Zpos p)).
  assert (Z.log2 (Zpos p) < b) by (apply Z.log2_lt_pow2; lia). lia.
Qed.

Lemma bounded_53_digits (q : positive) (e : Z) :
  Zpos (digits2_pos q) = 53 -> -1074 <= e <= 971 ->
  bounded prec emax q e = true.
Proof.
  intros Hd He. unfold bounded, canonical_mantissa. rewrite Hd.
  apply andb_true_iff. split.
  - apply Z.eqb_eq. unfold fexp, SpecFloat.emin, prec, emax. lia.
  - apply Z.leb_le. unfold prec, emax. lia.
Qed.

(** The number of [r * 2^j] for an integer [r] below [2^53]: the integer
    itself, with the digits of [r] shifted to a mantissa of 53 digits. *)
Lemma of_Z_shifted (r : positive) (j : Z) :
  Zpos r < 2 ^ 53 -> 0 <= j <= 900 ->
  let d := Zpos (digits2_pos r) in
  of_Z (Zpos r * 2 ^ j)
  = S754_finite false (Z.to_pos (Zpos r * 2 ^ (53 - d))) (d - 53 + j).
Proof.
  intros Hr Hj d.
  pose proof (digits2_bounds r 53 ltac:(lia) Hr) as Hd. fold d in Hd.
  set (p := Z.to_pos (Zpos r * 2 ^ j)).
  assert (Hp : Zpos p = Zpos r * 2 ^ j) by (apply Zpos_to_pos_shift; lia).
  rewrite <- Hp.
  set (q := Z.to_pos (Zpos r * 2 ^ (53 - d))).
  assert (Hq : Zpos q = Zpos r * 2 ^ (53 - d)) by (apply Zpos_to_pos_shift; lia).
  assert (Hdp : Zpos (digits2_pos p) = d + j).
  { apply digits2_shifted; [lia | exact Hp]. }
  assert (Hdq : Zpos (digits2_pos q) = 53).
  { rewrite (digits2_shifted q r (53 - d)) by (lia || exact Hq). fold d. lia. }
  unfold of_Z, binary_normalize, binary_round.
  rewrite Z.add_0_r, Hdp.
  assert (Hf : fexp prec emax (d + j) = d + j - 53).
  { unfold fexp, SpecFloat.emin, prec, emax. lia. }
  rewrite Hf. unfold shl_align. rewrite Z.sub_0_r.
  destruct (d + j - 53) as [| k | k] eqn:Ek.
  - rewrite (round_exact false p q 0 0).
    + f_equal. lia.
    + lia.
    + rewrite Hp, Hq, Z.pow_0_r, Z.mul_1_r.
      replace (53 - d) with j by lia. reflexivity.
    + apply bounded_53_digits; [exact Hdq | lia].
  - rewrite (round_exact false p q 0 (Zpos k)).
    + f_equal. lia.
    + lia.
    + rewrite Hp, Hq, <- Z.mul_assoc, <- Z.pow_add_r by lia.
      replace (53 - d + Zpos k) with j by lia. reflexivity.
    + apply bounded_53_digits; [exact Hdq | lia].
  - rewrite (round_exact false (Pos.iter xO p k) q (Zneg k) 0).
    + f_equal. lia.
    + lia.
    + change (Pos.iter xO p k) with (shift_pos k p).
      rewrite shift_pos_correct. change (Zpower_pos 2 k) with (2 ^ Zpos k).
      rewrite Hp, Hq, Z.pow_0_r, Z.mul_1_r.
      rewrite (Z.mul_comm (2 ^ Zpos k)), <- Z.mul_assoc, <- Z.pow_add_r by lia.
      replace (j + Zpos k) with (53 - d) by lia. reflexivity.
    + apply bounded_53_digits; [exact Hdq | lia].
Qed.

(** Such an integer is a number, exactly. *)
Lemma exact_Z_of_Z_shifted (r : positive) (j : Z) :
  Zpos r < 2 ^ 53 -> 0 <= j <= 900 ->
  exact_Z (of_Z (Zpos r * 2 ^ j)) = Some (Zpos r * 2 ^ j).
Proof.
  intros Hr Hj. rewrite of_Z_shifted by assumption. cbv zeta.
  pose proof (digits2_bounds r 53 ltac:(lia) Hr) as Hd.
  set (d := Zpos (digits2_pos r)) in *.
  unfold exact_Z. rewrite Zpos_to_pos_shift by lia.
  destruct (d - 53 + j) as [| k | k] eqn:Ek.
  - rewrite Z.pow_0_r, Z.mul_1_r. replace (53 - d) with j by lia. reflexivity.
  - rewrite <- Z.mul_assoc, <- Z.pow_add_r by lia.
    replace (53 - d + Zpos k) with j by lia. reflexivity.
  - replace (53 - d) with (j + Zpos k) by lia.
    rewrite Z.pow_add_r, Z.mul_assoc by lia.
    rewrite Z.mod_mul, Z.div_mul by lia. reflexivity.
Qed.

Lemma exact_Z_of_Z (n : Z) : 0 <= n < 2 ^ 53 -> exact_Z (of_Z n) = Some n.
Proof.
  intros [Hn Hlt]. destruct n as [| p | p]; [reflexivity | | lia].
  pose proof (exact_Z_of_Z_shifted p 0 Hlt ltac:(lia)) as H.
  rewrite Z.pow_0_r, Z.mul_1_r in H. exact H.
Qed.

(** The product of 120 and an integer [n] is exact as long as [15 * n]
    fits the 53 digits of a mantissa. *)
Lemma mul_120_of_Z (n : Z) :
  0 <= n -> 15 * n < 2 ^ 53 -> mul (of_Z 120) (of_Z n) = of_Z (120 * n).
Proof.
  intros Hn Hlt. destruct n as [| p | p]; [reflexivity | | lia].
  change (15 * Zpos p) with (Zpos (15 * p)) in Hlt.
  replace (120 * Zpos p) with (Zpos (15 * p) * 2 ^ 3) by lia.
  rewrite (of_Z_shifted (15 * p) 3) by lia.
  replace (of_Z (Zpos p)) with (of_Z (Zpos p * 2 ^ 0))
    by (rewrite Z.pow_0_r, Z.mul_1_r; reflexivity).
  rewrite (of_Z_shifted p 0) by lia.
  cbv zeta.
  pose proof (digits2_bounds p 53 ltac:(lia) ltac:(lia)) as Hd.
  pose proof (digits2_bounds (15 * p) 53 ltac:(lia) Hlt) as HD.
  set (d := Zpos (digits2_pos p)) in *.
  set (D := Zpos (digits2_pos (15 * p))) in *.
  assert (HdD : d + 3 <= D).
  { unfold d, D. rewrite !digits2_log2.
    enough (3 + Z.log2 (Zpos p) <= Z.log2 (Zpos (15 * p))) by lia.
    rewrite <- (Z.log2_mul_pow2 (Zpos p) 3) by lia.
    apply Z.log2_le_mono. lia. }
  set (mp := Z.to_pos (Zpos p * 2 ^ (53 - d))).
  set (q := Z.to_pos (Zpos (15 * p) * 2 ^ (53 - D))).
  assert (Hmp : Zpos mp = Zpos p * 2 ^ (53 - d)) by (apply Zpos_to_pos_shift; lia).
  assert (Hq : Zpos q = Zpos (15 * p) * 2 ^ (53 - D)) by (apply Zpos_to_pos_shift; lia).
  replace (of_Z 120) with (S754_finite false 8444249301319680 (-46)) by reflexivity.
  unfold mul, SFmul. simpl xorb.
  rewrite (round_exact false _ q (-46 + (d - 53 + 0)) (D - d + 49)).
  - f_equal; lia.
  - lia.
  - rewrite Pos2Z.inj_mul, Hmp, Hq, Pos2Z.inj_mul.
    change (Zpos 8444249301319680) with (15 * 2 ^ 49).
    replace (53 - d) with ((53 - D) + (D - d)) by lia.
    rewrite (Z.pow_add_r 2 (53 - D) (D - d)) by lia.
    rewrite (Z.pow_add_r 2 (D - d) 49) by lia. change (Zpos 15) with 15. ring.
  - apply bounded_53_digits; [| lia].
    rewrite (digits2_shifted q (15 * p) (53 - D)) by (lia || exact Hq).
    fold D. lia.
Qed.

(** [x * 1.0] is [x] for every binary64 value. *)
Lemma mul_one (x : number) : is_double x -> mul x (of_Z 1) = x.
Proof.
  intros Hx. destruct x as [s | s | | s m e];
    [destruct s; reflexivity | destruct s; reflexivity | reflexivity |].
  unfold is_double in Hx. simpl in Hx.
  change (of_Z 1) with (S754_finite false 4503599627370496 (-52)).
  unfold mul, SFmul. rewrite xorb_false_r.
  rewrite (round_exact s _ m (e + -52) 52).
  - f_equal; lia.
  - lia.
  - rewrite Pos2Z.inj_mul. reflexivity.
  - replace (e + -52 + 52) with e by lia. exact Hx.
Qed.


End NumberFacts.

(** * The tool implementations *)

(** C1. For every origin and destination, flight lookup with the trip type
    "round-trip" returns a total flight time of 11.0 hours and a total cost
    of 840 USD: the one-way 5.5 hours and 420 USD, doubled. *)
Theorem round_trip_doubles (origin destination : value) :
  let r := getFlightSchedule origin destination (VString "round-trip") in
  totalFlightTimeHours r = of_Z 11 /\
  totalCostUSD r = of_Z 840 /\
  totalFlightTimeHours r = mul (of_dyadic 11 (-1)) (of_Z 2) /\
  totalCostUSD r = mul (of_Z 420) (of_Z 2) /\
  exact_Z (totalFlightTimeHours r) = Some 11 /\
  exact_Z (totalCostUSD r) = Some 840.
Proof. cbv zeta. repeat split; reflexivity. Qed.

Lemma strict_eq_string_false (v : value) (s : string) :
  v <> VString s -> strict_eq_string v s = false.
Proof.
  intros Hne. destruct v as [| | b | x | t | l | l]; try reflexivity.
  simpl. apply String.eqb_neq. congruence.
Qed.

(** C2. For every origin and destination and every trip type other than
    the string "round-trip" ("one-way", a typo, the empty string, or a value
    that is no string), flight lookup returns the one-way constants: 5.5
    hours and 420 USD. *)
Theorem one_way_otherwise (origin destination tripType : value) :
  tripType <> VString "round-trip" ->
  let r := getFlightSchedule origin destination tripType in
  totalFlightTimeHours r = of_dyadic 11 (-1) /\
  totalCostUSD r = of_Z 420 /\
  exact_Z (totalCostUSD r) = Some 420.
Proof.
  intros Hne. cbv zeta. unfold getFlightSchedule. simpl.
  rewrite (strict_eq_string_false _ _ Hne). repeat split; reflexivity.
Qed.

Lemma one_way_otherwise_witness :
  let r := getFlightSchedule (VString "Lagos") (VString "Nairobi")
             (VString "round trip") in
  totalFlightTimeHours r = of_dyadic 11 (-1) /\
  totalCostUSD r = of_Z 420 /\
  exact_Z (totalCostUSD r) = Some 420.
Proof.
  apply (one_way_otherwise (VString "Lagos") (VString "Nairobi")
           (VString "round trip")).
  discriminate.
Defined.

Section ToolFacts.

Variable StringToNumber : string -> number.
Variable ObjectToString : value -> option string.

Local Abbreviation hotel := (getHotelBooking StringToNumber ObjectToString).
Local Abbreviation convert := (convertCurrency StringToNumber ObjectToString).
Local Abbreviation execute := (executeTool StringToNumber ObjectToString).

(** C3, as amended. For every city and every non-negative integer [n]
    with [15 * n < 2^53] (every [n] up to 600479950316066), hotel lookup on
    the number [n] returns a nightly rate of 120 and a total cost that is
    exactly [120 * n]. *)
Theorem hotel_total_exact (city : value) (n : Z) :
  0 <= n -> 15 * n < 2 ^ 53 ->
  exists r,
    hotel city (VNumber (of_Z n)) = Return r /\
    exact_Z (of_Z n) = Some n /\
    costPerNightUSD r = of_Z 120 /\
    totalHotelCostUSD r = of_Z (120 * n) /\
    exact_Z (totalHotelCostUSD r) = Some (120 * n).
Proof.
  intros Hn Hlt. eexists. split; [reflexivity |].
  cbv beta iota zeta delta [totalHotelCostUSD costPerNightUSD].
  assert (Hmul := NumberFacts.mul_120_of_Z n Hn Hlt).
  split; [apply NumberFacts.exact_Z_of_Z; lia |].
  split; [reflexivity |].
  split; [exact Hmul |].
  rewrite Hmul. destruct n as [| p | p]; [reflexivity | | lia].
  replace (120 * Zpos p) with (Zpos (15 * p) * 2 ^ 3) by lia.
  apply NumberFacts.exact_Z_of_Z_shifted; lia.
Qed.

(** C4. For every amount and every pair of currency codes, currency
    conversion returns a converted amount equal to the original amount,
    and the two codes unchanged. *)
Theorem conversion_identity (amount : number) (from to : value) :
  is_double amount ->
  exists r,
    convert (VNumber amount) from to = Return r /\
    VNumber (convertedAmount r) = originalAmount r /\
    originalAmount r = VNumber amount /\
    cc_from r = from /\
    cc_to r = to.
Proof.
  intros Hd. eexists. split; [reflexivity |].
  cbv beta iota zeta delta [convertedAmount originalAmount cc_from cc_to].
  rewrite (NumberFacts.mul_one amount Hd). auto.
Qed.

(** C5, as amended. For every argument mapping, the dispatcher on a name
    that is none of the three registered ones throws the "Unknown tool"
    error and returns no result; on each registered name its outcome is the
    outcome of the tool of that name on the arguments read from the
    mapping: the result the tool returns, or the error the tool throws. The
    flight lookup always returns. *)
Theorem dispatch (name : string) (args : value) (props : list (string * value)) :
  (name <> "get_flight_schedule" ->
   name <> "get_hotel_booking" ->
   name <> "convert_currency" ->
   execute name args = Throw (Error ("Unknown tool: " +:+ name))) /\
  execute "get_flight_schedule" (VObject props)
  = Return (FlightResult
      (getFlightSchedule (own_property props "origin")
         (own_property props "destination")
         (own_property props "tripType"))) /\
  execute "get_hotel_booking" (VObject props)
  = map_outcome HotelResult
      (hotel (own_property props "city") (own_property props "nights")) /\
  execute "convert_currency" (VObject props)
  = map_outcome CurrencyResult
      (convert (own_property props "amount")
         (own_property props "from")
         (own_property props "to")).
Proof.
  repeat split; try reflexivity.
  intros H1 H2 H3. unfold executeTool.
  apply String.eqb_neq in H1, H2, H3. rewrite H1, H2, H3. reflexivity.
Qed.

End ToolFacts.

(** C3, as the specification states it, fails: 600479950316067 is a
    number, and the total for that many nights is 72057594037928032, which
    is not 120 times it. *)
Lemma hotel_total_inexact :
  exact_Z (of_Z Scenario.many_nights) = Some Scenario.many_nights /\
  (exists r,
     getHotelBooking Scenario.StringToNumber Scenario.ObjectToString
       (VString "Nairobi") (VNumber (of_Z Scenario.many_nights)) = Return r /\
     exact_Z (totalHotelCostUSD r) = Some 72057594037928032) /\
  72057594037928032 <> 120 * Scenario.many_nights.
Proof.
  split; [reflexivity |]. split; [eexists; split; reflexivity |].
  vm_compute. discriminate.
Qed.

Lemma hotel_total_exact_witness :
  exists r,
    getHotelBooking Scenario.StringToNumber Scenario.ObjectToString
      (VString "Nairobi") (VNumber (of_Z 3)) = Return r /\
    exact_Z (of_Z 3) = Some 3 /\
    costPerNightUSD r = of_Z 120 /\
    totalHotelCostUSD r = of_Z (120 * 3) /\
    exact_Z (totalHotelCostUSD r) = Some (120 * 3).
Proof.
  apply (hotel_total_exact Scenario.StringToNumber Scenario.ObjectToString
           (VString "Nairobi") 3); lia.
Defined.

Lemma conversion_identity_witness :
  exists r,
    convertCurrency Scenario.StringToNumber Scenario.ObjectToString
      (VNumber (of_dyadic 2401 (-1))) (VString "USD") (VString "KES") = Return r /\
    VNumber (convertedAmount r) = originalAmount r /\
    originalAmount r = VNumber (of_dyadic 2401 (-1)) /\
    cc_from r = VString "USD" /\
    cc_to r = VString "KES".
Proof.
  apply (conversion_identity Scenario.StringToNumber Scenario.ObjectToString
           (of_dyadic 2401 (-1)) (VString "USD") (VString "KES")).
  reflexivity.
Defined.

(** C5, as the specification states it, fails: on the argument mapping
    parsed from [{"nights":{"toString":null}}] the dispatcher, for the
    registered name "get_hotel_booking", returns no result; the product in
    the hotel lookup throws a [TypeError]. *)
Lemma dispatch_unconvertible_nights :
  executeTool Scenario.StringToNumber Scenario.ObjectToString
    "get_hotel_booking" (VObject [("nights", Scenario.unconvertible)])
  = Throw TypeError /\
  getHotelBooking Scenario.StringToNumber Scenario.ObjectToString
    VUndefined Scenario.unconvertible
  = Throw TypeError.
Proof. split; reflexivity. Qed.

Lemma dispatch_witness :
  ("book_car" <> "get_flight_schedule" ->
   "book_car" <> "get_hotel_booking" ->
   "book_car" <> "convert_currency" ->
   executeTool Scenario.StringToNumber Scenario.ObjectToString "book_car" VNull
   = Throw (Error "Unknown tool: book_car")) /\
  executeTool Scenario.StringToNumber Scenario.ObjectToString
    "get_hotel_booking" (VObject [("city", VString "Nairobi"); ("nights", VNumber (of_Z 3))])
  = map_outcome HotelResult
      (getHotelBooking Scenario.StringToNumber Scenario.ObjectToString
         (VString "Nairobi") (VNumber (of_Z 3))).
Proof.
  pose proof (dispatch Scenario.StringToNumber Scenario.ObjectToString
                "book_car" VNull
                [("city", VString "Nairobi"); ("nights", VNumber (of_Z 3))])
    as (Hunknown & _ & Hhotel & _).
  split; [exact Hunknown | exact Hhotel].
Defined.

(** * The conversation orchestrator *)

Section AgentFacts.

Variable StringToNumber : string -> number.
Variable ObjectToString : value -> option string.
Variable JSON_parse : string -> option value.
Variable JSON_stringify : value -> string.
Variable create : request -> outcome response.

Local Abbreviation executeTool := (executeTool StringToNumber ObjectToString).
Local Abbreviation process_call :=
  (process_call StringToNumber ObjectToString JSON_parse JSON_stringify).
Local Abbreviation process_calls :=
  (process_calls StringToNumber ObjectToString JSON_parse JSON_stringify).
Local Abbreviation processable :=
  (processable StringToNumber ObjectToString JSON_parse).
Local Abbreviation answers :=
  (answers StringToNumber ObjectToString JSON_parse JSON_stringify).
Local Abbreviation executes := (executes JSON_parse).
Local Abbreviation second_pass := (second_pass create).
Local Abbreviation runBookingAgent :=
  (runBookingAgent StringToNumber ObjectToString JSON_parse JSON_stringify create).


Lemma skipped_false (call : tool_call) :
  skipped call = false <->
  tc_type call = "function" /\ exists f, tc_function call = Some f.
Proof.
  unfold skipped. rewrite orb_false_iff, negb_false_iff, String.eqb_eq.
  destruct (tc_function call) as [f |]; split.
  - intros [H _]. eauto.
  - tauto.
  - intros [_ H]. discriminate.
  - intros [_ [f H]]. discriminate.
Qed.

(** A skipped entry leaves the state as it is. *)
Lemma process_call_skipped (call : tool_call) (st : state) :
  skipped call = true -> process_call call st = (st, Return tt).
Proof. intros H. unfold process_call. rewrite H. reflexivity. Qed.

(** What one iteration does for an entry that is not skipped. *)
Lemma process_call_invocable (call : tool_call) (f : function_call) (st : state) :
  tc_type call = "function" -> tc_function call = Some f ->
  process_call call st =
    match JSON_parse (fc_arguments f) with
    | None =>
        ({| messages := messages st; trace := trace st ++ [calling f] |},
         Throw SyntaxError)
    | Some args =>
        let evs := [calling f; ConsoleLog [VString "Arguments:"; args];
                    ToolExecution (fc_name f) args] in
        match executeTool (fc_name f) args with
        | Throw e =>
            ({| messages := messages st; trace := trace st ++ evs |}, Throw e)
        | Return result =>
            ({| messages := messages st ++
                  [ToolMessage (tc_id call)
                     (JSON_stringify (result_value result))];
                trace := trace st ++ evs ++
                  [ConsoleLog [VString "Result:"; result_value result]] |},
             Return tt)
        end
    end.
Proof.
  intros Ht Hf. unfold process_call, skipped. rewrite Hf, Ht. simpl negb. cbv iota.
  simpl orb. cbv iota.
  unfold bind, console_log, emit, parse, lift, await_executeTool, push, bind, emit, lift.
  simpl.
  destruct (JSON_parse (fc_arguments f)) as [args |]; [| reflexivity].
  simpl. destruct (executeTool (fc_name f) args) as [result | e]; simpl;
    rewrite <- ?app_assoc; reflexivity.
Qed.

Lemma model_calls_app (a b : list event) :
  model_calls (a ++ b) = model_calls a ++ model_calls b.
Proof. apply omap_app. Qed.

Lemma tool_executions_app (a b : list event) :
  tool_executions (a ++ b) = tool_executions a ++ tool_executions b.
Proof. apply omap_app. Qed.

(** The loop, whatever its outcome: the dispatcher is called for a prefix
    of the entries that are not skipped, in their order; a tool-result
    message is appended for each call that returned, in the same order;
    no request is sent to the model. *)
Lemma process_calls_run (calls : list tool_call) (st st' : state) (o : outcome unit) :
  process_calls calls st = (st', o) ->
  exists executed processed l evs,
    messages st' = messages st ++ l /\
    trace st' = trace st ++ evs /\
    processed `prefix_of` executed /\
    executed `prefix_of` filter invocable calls /\
    Forall2 answers processed l /\
    Forall2 executes executed (tool_executions evs) /\
    model_calls evs = [] /\
    (o = Return tt <-> forallb processable calls = true) /\
    (o = Return tt -> processed = filter invocable calls).
Proof.
  revert st. induction calls as [| call rest IH]; intros st Hrun.
  - inversion Hrun; subst. exists [], [], [], [].
    rewrite !app_nil_r. repeat split; auto using Forall2_nil. 
  - simpl in Hrun. unfold bind in Hrun.
    destruct (skipped call) eqn:Hs.
    + rewrite (process_call_skipped call st Hs) in Hrun.
      apply IH in Hrun as (ex & pr & l & evs & H). 
      exists ex, pr, l, evs.
      assert (Hi : invocable call = false) by (unfold invocable; rewrite Hs; reflexivity).
      assert (Hp : processable call = true).
      { unfold processable. rewrite Hs. destruct (tc_function call); reflexivity. }
      rewrite filter_cons_False by (rewrite Hi; auto).
      simpl forallb. rewrite Hp. exact H.
    + assert (Hi : invocable call = true) by (unfold invocable; rewrite Hs; reflexivity).
      apply skipped_false in Hs as [Ht [f Hf]].
      rewrite (process_call_invocable call f st Ht Hf) in Hrun.
      rewrite filter_cons_True by (rewrite Hi; auto).
      simpl forallb. unfold processable at 1. rewrite Hf.
      replace (skipped call) with false
        by (symmetry; apply skipped_false; eauto).
      simpl orb.
      destruct (JSON_parse (fc_arguments f)) as [args |] eqn:Hparse.
      * cbv zeta in Hrun.
        destruct (executeTool (fc_name f) args) as [result | e] eqn:Hexec.
        -- apply IH in Hrun
             as (ex & pr & l & evs & Hm & Htr & Hpp & Hpe & Ha & He & Hmc & Ho & Hall).
           simpl in Hm, Htr.
           exists (call :: ex), (call :: pr),
             (ToolMessage (tc_id call) (JSON_stringify (result_value result)) :: l),
             ([calling f; ConsoleLog [VString "Arguments:"; args];
               ToolExecution (fc_name f) args;
               ConsoleLog [VString "Result:"; result_value result]] ++ evs).
           rewrite Hm, Htr, <- !app_assoc. simpl.
           repeat split; auto.
           ++ apply prefix_cons. exact Hpp.
           ++ apply prefix_cons. exact Hpe.
           ++ constructor; [| exact Ha]. exists f, args, result. auto.
           ++ constructor; [| exact He]. exists f. auto.
           ++ apply Ho.
           ++ apply Ho.
           ++ intros Hret. f_equal. auto.
        -- inversion Hrun; subst. 
           exists [call], [], [],
             [calling f; ConsoleLog [VString "Arguments:"; args];
              ToolExecution (fc_name f) args].
           simpl. rewrite app_nil_r.
           repeat split; auto using Forall2_nil; try discriminate.
           ++ apply prefix_nil.
           ++ apply prefix_cons, prefix_nil.
           ++ constructor; [| constructor]. exists f. auto.
      * inversion Hrun; subst.
        exists [], [], [], [calling f]. simpl. rewrite app_nil_r.
        repeat split; auto using Forall2_nil; try discriminate; apply prefix_nil.
Qed.


Lemma run_no_reply (e : exn) :
  create first_request = Throw e ->
  runBookingAgent =
    ({| messages := [UserMessage userQuery]; trace := [ModelCall first_request] |},
     Throw e).
Proof.
  intros H. unfold runBookingAgent, agent_body, bind, get_messages, await_create,
    bind, emit, lift. simpl. fold first_request. rewrite H. reflexivity.
Qed.

Lemma run_no_choice (response1 : response) :
  create first_request = Return response1 ->
  choices response1 = [] ->
  runBookingAgent =
    ({| messages := [UserMessage userQuery]; trace := [ModelCall first_request] |},
     Throw TypeError).
Proof.
  intros H Hc. unfold runBookingAgent, agent_body, bind, get_messages, await_create,
    bind, emit, lift. simpl. fold first_request. rewrite H.
  unfold first_choice. rewrite Hc. reflexivity.
Qed.

Lemma run_direct (response1 : response) (first : choice) (others : list choice) :
  create first_request = Return response1 ->
  choices response1 = first :: others ->
  rm_tool_calls (ch_message first) = None ->
  runBookingAgent =
    ({| messages := messages (after_first_reply first);
        trace := trace (after_first_reply first) ++
          [ConsoleLog [VString "Direct Response:"];
           ConsoleLog [content_value (rm_content (ch_message first))]] |},
     Return tt).
Proof.
  intros H Hc Hn. unfold runBookingAgent, agent_body, bind, get_messages, await_create,
    bind, emit, lift. simpl. fold first_request. rewrite H.
  unfold first_choice. rewrite Hc. unfold console_log, emit, push. simpl.
  rewrite Hn. reflexivity.
Qed.

Lemma run_tool_calls (response1 : response) (first : choice) (others : list choice)
    (calls : list tool_call) :
  create first_request = Return response1 ->
  choices response1 = first :: others ->
  rm_tool_calls (ch_message first) = Some calls ->
  runBookingAgent =
    match process_calls calls
            {| messages := messages (after_first_reply first);
               trace := trace (after_first_reply first) ++
                 [ConsoleLog [VString (newline +:+ "Tools Called:")]] |} with
    | (st, Throw e) => (st, Throw e)
    | (st, Return _) => second_pass st
    end.
Proof.
  intros H Hc Hn. unfold runBookingAgent, agent_body, bind, get_messages, await_create,
    bind, emit, lift. simpl. fold first_request. rewrite H.
  unfold first_choice at 1. rewrite Hc. unfold console_log, emit, push. simpl.
  rewrite Hn. unfold after_first_reply. simpl.
  match goal with |- context [process_calls calls ?s] =>
    destruct (process_calls calls s) as [st [[] | e]] end; [| reflexivity].
  unfold second_pass, second_request. 
  destruct (create _) as [response2 | e]; [| reflexivity]. simpl.
  destruct (first_choice response2); reflexivity.
Qed.


Lemma process_calls_app (a b : list tool_call) (st : state) :
  process_calls (a ++ b) st
  = bind (process_calls a) (fun _ => process_calls b) st.
Proof.
  revert st. induction a as [| call a IH]; intros st; [reflexivity |].
  simpl. unfold bind.
  destruct (process_call call st) as [st1 [[] | e]]; [| reflexivity].
  rewrite IH. reflexivity.
Qed.

Lemma second_pass_effects (st : state) :
  exists after,
    messages (fst (second_pass st)) = messages st /\
    trace (fst (second_pass st))
    = trace st ++ ModelCall (second_request (messages st)) :: after /\
    model_calls after = [] /\
    tool_executions after = [].
Proof.
  unfold second_pass.
  destruct (create (second_request (messages st))) as [response2 | e].
  - destruct (first_choice response2) as [final | e]; simpl;
      rewrite <- !app_assoc; simpl; eexists; repeat split; reflexivity.
  - simpl. exists []. repeat split; reflexivity.
Qed.

Lemma answers_ids (processed : list tool_call) (results : list message) :
  Forall2 answers processed results ->
  tool_result_ids results = map tc_id processed /\
  request_ids results = [].
Proof.
  induction 1 as [| call m processed results Ha _ [IH1 IH2]]; [split; reflexivity |].
  destruct Ha as (f & args & result & _ & _ & _ & ->).
  simpl. rewrite IH1. auto.
Qed.

Lemma occurrences_absent (id : string) (ids : list string) :
  id ∉ ids -> occurrences id ids = 0%nat.
Proof.
  unfold occurrences. induction ids as [| x ids IH]; intros Hin; [reflexivity |].
  apply not_elem_of_cons in Hin as [Hne Hin].
  rewrite filter_cons_False by congruence. exact (IH Hin).
Qed.

Lemma occurrences_NoDup (id : string) (ids : list string) :
  NoDup ids -> id ∈ ids -> occurrences id ids = 1%nat.
Proof.
  induction 1 as [| x ids Hx Hnd IH]; intros Hin.
  - inversion Hin.
  - destruct (decide (x = id)) as [-> | Hne].
    + unfold occurrences. rewrite filter_cons_True by reflexivity. simpl.
      f_equal. apply occurrences_absent. exact Hx.
    + unfold occurrences. rewrite filter_cons_False by exact Hne.
      apply IH. apply elem_of_cons in Hin as [-> | Hin]; [congruence | exact Hin].
Qed.


(** C7. For every first reply that holds a list of invocation requests,
    the dispatcher is called for the requests one after the other in the
    order of the list (for all of them that are not skipped when none
    fails, for those up to the failing one otherwise), and the tool-result
    messages appended to the conversation answer the requests in that same
    order. *)
Theorem tool_results_follow_requests (response1 : response) (first : choice)
    (others : list choice) (calls : list tool_call) :
  create first_request = Return response1 ->
  choices response1 = first :: others ->
  rm_tool_calls (ch_message first) = Some calls ->
  let st := fst runBookingAgent in
  exists executed processed results,
    executed `prefix_of` filter invocable calls /\
    processed `prefix_of` executed /\
    Forall2 executes executed (tool_executions (trace st)) /\
    messages st
    = [UserMessage userQuery; AssistantMessage (ch_message first)] ++ results /\
    Forall2 answers processed results /\
    tool_result_ids (messages st) = map tc_id processed /\
    (forallb processable calls = true ->
     processed = filter invocable calls /\ executed = filter invocable calls).
Proof.
  intros Hcreate Hchoices Hcalls. cbv zeta.
  rewrite (run_tool_calls response1 first others calls Hcreate Hchoices Hcalls).
  destruct (process_calls calls _) as [st2 o] eqn:Hloop.
  apply process_calls_run in Hloop
    as (executed & processed & results & evs
        & Hm & Htr & Hpp & Hpe & Ha & He & Hmc & Ho & Hall).
  simpl in Hm, Htr.
  assert (Hfinal : forall st',
    messages st' = messages st2 ->
    tool_executions (trace st') = tool_executions (trace st2) ->
    exists executed processed results,
      executed `prefix_of` filter invocable calls /\
      processed `prefix_of` executed /\
      Forall2 executes executed (tool_executions (trace st')) /\
      messages st'
      = [UserMessage userQuery; AssistantMessage (ch_message first)] ++ results /\
      Forall2 answers processed results /\
      tool_result_ids (messages st') = map tc_id processed /\
      (forallb processable calls = true ->
       processed = filter invocable calls /\ executed = filter invocable calls)).
  { intros st' Hm' Ht'. exists executed, processed, results.
    rewrite Hm', Ht', Hm, Htr.
    split; [exact Hpe |]. split; [exact Hpp |]. split; [exact He |].
    split; [reflexivity |]. split; [exact Ha |].
    split; [apply (answers_ids processed results Ha) |].
    intros Hproc. apply Ho in Hproc. apply Hall in Hproc. subst processed.
    split; [reflexivity |].
    apply prefix_length_eq; [exact Hpe |].
    apply prefix_length. exact Hpp. }
  destruct o as [[] | e]; [| apply Hfinal; reflexivity].
  destruct (second_pass_effects st2) as (after & Hm2 & Ht2 & _ & Hte).
  apply Hfinal; [exact Hm2 |].
  rewrite Ht2, tool_executions_app. simpl. rewrite Hte, app_nil_r. reflexivity.
Qed.

Lemma prefix_elem_of {A : Type} (x : A) (l1 l2 : list A) :
  l1 `prefix_of` l2 -> x ∈ l1 -> x ∈ l2.
Proof. intros [k ->] Hx. apply elem_of_app. left. exact Hx. Qed.

(** C9, as amended. Whenever the first reply holds at least one invocation
    request and every invocation is processed without an error (its payload
    parses and the dispatcher returns), the orchestrator sends exactly one
    second request to the model, after the dispatcher calls: it carries
    the whole conversation (the user message, the assistant reply and
    every tool-result message), no Tool Catalog and no tool choice, and
    names a model other than the one of the first request. *)
Theorem synthesis_call_after_tools (response1 : response) (first : choice)
    (others : list choice) (calls : list tool_call) :
  create first_request = Return response1 ->
  choices response1 = first :: others ->
  rm_tool_calls (ch_message first) = Some calls ->
  calls <> [] ->
  forallb processable calls = true ->
  let st := fst runBookingAgent in
  exists results before after,
    let conversation :=
      [UserMessage userQuery; AssistantMessage (ch_message first)] ++ results in
    Forall2 answers (filter invocable calls) results /\
    messages st = conversation /\
    trace st = before ++ ModelCall (second_request conversation) :: after /\
    model_calls before = [first_request] /\
    Forall2 executes (filter invocable calls) (tool_executions before) /\
    model_calls after = [] /\
    tool_executions after = [] /\
    model_calls (trace st) = [first_request; second_request conversation] /\
    req_tools (second_request conversation) = None /\
    req_tool_choice (second_request conversation) = None /\
    req_model (second_request conversation) <> req_model first_request.
Proof.
  intros Hcreate Hchoices Hcalls _ Hproc. cbv zeta.
  rewrite (run_tool_calls response1 first others calls Hcreate Hchoices Hcalls).
  destruct (process_calls calls _) as [st2 o] eqn:Hloop.
  apply process_calls_run in Hloop
    as (executed & processed & results & evs
        & Hm & Htr & Hpp & Hpe & Ha & He & Hmc & Ho & Hall).
  simpl in Hm, Htr.
  apply Ho in Hproc. subst o. specialize (Hall eq_refl). subst processed.
  assert (executed = filter invocable calls) as ->.
  { apply prefix_length_eq; [exact Hpe |]. apply prefix_length. exact Hpp. }
  destruct (second_pass_effects st2) as (after & Hm2 & Ht2 & Hmc2 & Hte2).
  exists results, (trace st2), after.
  rewrite Hm2, Ht2, Hm.
  split; [exact Ha |]. split; [reflexivity |]. split; [reflexivity |].
  assert (Hfirst : model_calls (trace st2) = [first_request]).
  { rewrite Htr. simpl. fold (model_calls evs). rewrite Hmc. reflexivity. }
  split; [exact Hfirst |].
  split; [rewrite Htr; exact He |].
  split; [exact Hmc2 |]. split; [exact Hte2 |].
  split; [rewrite model_calls_app, Hfirst; simpl;
          fold (model_calls after); rewrite Hmc2; reflexivity |].
  split; [reflexivity |]. split; [reflexivity |]. discriminate.
Qed.

Lemma no_synthesis_call (r : request) :
  r ∈ [first_request] -> req_model r <> SYNTHESIS_MODEL.
Proof. intros H. apply list_elem_of_singleton in H. subst r. discriminate. Qed.

(** C8, as amended. In the conversation of every run, aborted or not, the
    identifier of each tool-result message is the identifier of an
    invocation request among the messages before it, and of exactly one
    such request when the requests of the conversation carry distinct
    identifiers; and the conversation sent with the second request is the
    conversation the run ends with, so every tool-result message was
    appended before that request was issued. The first part speaks of every
    prefix of the conversation, that is of every state the conversation
    goes through. *)
Theorem tool_results_match_requests :
  let st := fst runBookingAgent in
  (forall earlier id content later,
      messages st = earlier ++ ToolMessage id content :: later ->
      id ∈ request_ids earlier /\
      (NoDup (request_ids (messages st)) ->
       occurrences id (request_ids earlier) = 1%nat)) /\
  (forall r,
      r ∈ model_calls (trace st) -> req_model r = SYNTHESIS_MODEL ->
      req_messages r = messages st).
Proof.
  cbv zeta.
  destruct (create first_request) as [response1 | e] eqn:Hcreate.
  2: { rewrite (run_no_reply e Hcreate). simpl. split.
       - intros [| ? [| ? ?]] id content later H; discriminate.
       - intros r Hr Hs. destruct (no_synthesis_call r Hr Hs). }
  destruct (choices response1) as [| first others] eqn:Hchoices.
  { rewrite (run_no_choice response1 Hcreate Hchoices). simpl. split.
    - intros [| ? [| ? ?]] id content later H; discriminate.
    - intros r Hr Hs. destruct (no_synthesis_call r Hr Hs). }
  destruct (rm_tool_calls (ch_message first)) as [calls |] eqn:Hcalls.
  2: { rewrite (run_direct response1 first others Hcreate Hchoices Hcalls).
       simpl. split.
       - intros [| ? [| ? [| ? ?]]] id content later H; discriminate.
       - intros r Hr Hs. destruct (no_synthesis_call r Hr Hs). }
  rewrite (run_tool_calls response1 first others calls Hcreate Hchoices Hcalls).
  destruct (process_calls calls _) as [st2 o] eqn:Hloop.
  apply process_calls_run in Hloop
    as (executed & processed & results & evs
        & Hm & Htr & Hpp & Hpe & Ha & He & Hmc & Ho & Hall).
  simpl in Hm, Htr.
  assert (Hfirst : model_calls (trace st2) = [first_request]).
  { rewrite Htr. simpl. fold (model_calls evs). rewrite Hmc. reflexivity. }
  assert (Hfinal : forall st',
    messages st' = messages st2 ->
    (forall r, r ∈ model_calls (trace st') -> req_model r = SYNTHESIS_MODEL ->
               r = second_request (messages st2)) ->
    (forall earlier id content later,
        messages st' = earlier ++ ToolMessage id content :: later ->
        id ∈ request_ids earlier /\
        (NoDup (request_ids (messages st')) ->
         occurrences id (request_ids earlier) = 1%nat)) /\
    (forall r,
        r ∈ model_calls (trace st') -> req_model r = SYNTHESIS_MODEL ->
        req_messages r = messages st')).
  { intros st' Hm' Hcalls'. rewrite Hm' in *. split.
    2: { intros r Hr Hs. rewrite (Hcalls' r Hr Hs). reflexivity. }
    intros earlier id content later Hsplit.
    rewrite Hm in Hsplit. rewrite Hm.
    destruct (answers_ids processed results Ha) as [_ Hnone].
    destruct earlier as [| m1 [| m2 earlier]]; try discriminate.
    simpl in Hsplit. injection Hsplit as <- <- ->.
    apply Forall2_app_inv_r in Ha as (pr1 & pr2 & Ha1 & Ha2 & ->).
    apply Forall2_cons_inv_r in Ha2 as (call & pr2' & Hanswer & _ & ->).
    destruct (answers_ids pr1 earlier Ha1) as [_ Hnone1].
    simpl. rewrite Hcalls, Hnone, Hnone1, !app_nil_r. simpl.
    destruct Hanswer as (f & args & result & _ & _ & _ & [= -> _]).
    assert (Hid : tc_id call ∈ map tc_id calls).
    { apply list_elem_of_fmap. exists call. split; [reflexivity |].
      assert (Hin : call ∈ filter invocable calls).
      { apply (prefix_elem_of call _ _ Hpe), (prefix_elem_of call _ _ Hpp).
        apply elem_of_app. right. apply elem_of_cons. left. reflexivity. }
      apply list_elem_of_filter in Hin as [_ Hin]. exact Hin. }
    split; [exact Hid |].
    intros Hnd. apply occurrences_NoDup; [exact Hnd | exact Hid]. }
  destruct o as [[] | e].
  - destruct (second_pass_effects st2) as (after & Hm2 & Ht2 & Hmc2 & _).
    apply Hfinal; [exact Hm2 |].
    intros r Hr Hs. rewrite Ht2, model_calls_app, Hfirst in Hr. simpl in Hr.
    fold (model_calls after) in Hr. rewrite Hmc2 in Hr.
    apply elem_of_cons in Hr as [-> | Hr]; [discriminate |].
    apply list_elem_of_singleton in Hr. exact Hr.
  - apply Hfinal; [reflexivity |].
    intros r Hr Hs. simpl in Hr. rewrite Hfirst in Hr.
    destruct (no_synthesis_call r Hr Hs).
Qed.

(** X11. When the first reply has no list of invocation requests at all,
    the reply is printed as it is: no dispatcher call, no second request. *)
Lemma direct_response (response1 : response) (first : choice)
    (others : list choice) :
  create first_request = Return response1 ->
  choices response1 = first :: others ->
  rm_tool_calls (ch_message first) = None ->
  let st := fst runBookingAgent in
  snd runBookingAgent = Return tt /\
  tool_executions (trace st) = [] /\
  model_calls (trace st) = [first_request] /\
  final_output (trace st)
  = Some [content_value (rm_content (ch_message first))].
Proof.
  intros Hcreate Hchoices Hcalls. cbv zeta.
  rewrite (run_direct response1 first others Hcreate Hchoices Hcalls).
  repeat split; reflexivity.
Qed.

(** X12. When an invocation throws, the run ends with its error and the
    second request is never sent. *)
Lemma abort_before_second_pass (response1 : response) (first : choice)
    (others : list choice) (calls : list tool_call) :
  create first_request = Return response1 ->
  choices response1 = first :: others ->
  rm_tool_calls (ch_message first) = Some calls ->
  forallb processable calls = false ->
  let st := fst runBookingAgent in
  (exists e, snd runBookingAgent = Throw e) /\
  model_calls (trace st) = [first_request].
Proof.
  intros Hcreate Hchoices Hcalls Hproc. cbv zeta.
  rewrite (run_tool_calls response1 first others calls Hcreate Hchoices Hcalls).
  destruct (process_calls calls _) as [st2 o] eqn:Hloop.
  apply process_calls_run in Hloop
    as (executed & processed & results & evs
        & Hm & Htr & Hpp & Hpe & Ha & He & Hmc & Ho & Hall).
  simpl in Htr.
  destruct o as [[] | e].
  - destruct Ho as [Ho _]. rewrite (Ho eq_refl) in Hproc. discriminate.
  - simpl. split; [exists e; reflexivity |].
    rewrite Htr. simpl. fold (model_calls evs). rewrite Hmc. reflexivity.
Qed.

End AgentFacts.

(** C6 fails on a first reply whose list of invocation requests is there
    but empty: the reply holds no invocation request, no tool is executed,
    and yet a second request is sent to the model and its answer, not the
    text of the first reply, is what the run surfaces. *)
Theorem empty_request_list_second_call :
  rm_tool_calls (ch_message (Scenario.selection (Some []))) = Some [] /\
  tool_executions (trace (fst (Scenario.run (Some [])))) = [] /\
  model_calls (trace (fst (Scenario.run (Some []))))
  = [first_request;
     second_request
       [UserMessage userQuery;
        AssistantMessage (ch_message (Scenario.selection (Some [])))]] /\
  final_output (trace (fst (Scenario.run (Some []))))
  = Some [VString Scenario.answer] /\
  final_output (trace (fst (Scenario.run (Some []))))
  <> Some [content_value (rm_content (ch_message (Scenario.selection (Some []))))].
Proof. repeat split. vm_compute. discriminate. Qed.


Lemma tool_results_follow_requests_witness :
  exists executed processed results,
    Forall2 (executes Scenario.JSON_parse) executed
      (tool_executions
         (trace (fst (Scenario.run
            (Some [Scenario.flight_call; Scenario.custom_call; Scenario.hotel_call]))))) /\
    messages (fst (Scenario.run
       (Some [Scenario.flight_call; Scenario.custom_call; Scenario.hotel_call])))
    = [UserMessage userQuery;
       AssistantMessage (ch_message (Scenario.selection
          (Some [Scenario.flight_call; Scenario.custom_call; Scenario.hotel_call])))]
      ++ results /\
    Forall2 (answers Scenario.StringToNumber Scenario.ObjectToString
               Scenario.JSON_parse Scenario.JSON_stringify) processed results /\
    tool_result_ids (messages (fst (Scenario.run
       (Some [Scenario.flight_call; Scenario.custom_call; Scenario.hotel_call]))))
    = map tc_id processed /\
    processed = [Scenario.flight_call; Scenario.hotel_call] /\
    executed = [Scenario.flight_call; Scenario.hotel_call].
Proof.
  destruct (tool_results_follow_requests
              Scenario.StringToNumber Scenario.ObjectToString
              Scenario.JSON_parse Scenario.JSON_stringify
              (Scenario.endpoint
                 (Some [Scenario.flight_call; Scenario.custom_call;
                        Scenario.hotel_call]))
              {| choices := [Scenario.selection
                   (Some [Scenario.flight_call; Scenario.custom_call;
                          Scenario.hotel_call])] |}
              (Scenario.selection
                 (Some [Scenario.flight_call; Scenario.custom_call;
                        Scenario.hotel_call]))
              []
              [Scenario.flight_call; Scenario.custom_call; Scenario.hotel_call]
              eq_refl eq_refl eq_refl)
    as (executed & processed & results & _ & _ & He & Hm & Ha & Hids & Hall).
  destruct (Hall eq_refl) as [Hp Hx].
  exists executed, processed, results.
  split; [exact He |]. split; [exact Hm |]. split; [exact Ha |].
  split; [exact Hids |]. split; [exact Hp | exact Hx].
Defined.

(** C8, as the specification states it, fails: the first reply holds two
    requests with the identifier "call_1"; the run completes, and the
    identifier of the first tool-result message is the identifier of two
    invocation requests among the messages before it. *)
Lemma shared_identifier_matches_two_requests :
  snd (Scenario.run (Some [Scenario.flight_call; Scenario.twin_call]))
  = Return tt /\
  (exists content,
     messages (fst (Scenario.run (Some [Scenario.flight_call; Scenario.twin_call])))
       !! 2%nat
     = Some (ToolMessage "call_1" content)) /\
  occurrences "call_1"
    (request_ids
       (take 2 (messages (fst (Scenario.run
          (Some [Scenario.flight_call; Scenario.twin_call])))))) = 2%nat.
Proof.
  split; [reflexivity |]. split; [eexists; vm_compute; reflexivity |].
  vm_compute. reflexivity.
Qed.

(** On the payload [{"nights":{"toString":null}}] the product in the hotel
    lookup throws: the entry is not processed, the run ends with the
    [TypeError] after the first request, and no tool-result message is
    appended. *)
Lemma unconvertible_nights_aborts_run :
  processable Scenario.StringToNumber Scenario.ObjectToString
    Scenario.JSON_parse Scenario.stubborn_call = false /\
  snd (Scenario.run (Some [Scenario.stubborn_call])) = Throw TypeError /\
  model_calls (trace (fst (Scenario.run (Some [Scenario.stubborn_call]))))
  = [first_request] /\
  tool_result_ids (messages (fst (Scenario.run (Some [Scenario.stubborn_call]))))
  = [].
Proof. repeat split. Qed.

Lemma tool_results_match_requests_witness :
  "call_2" ∈ request_ids
    (take 3 (messages (fst (Scenario.run
       (Some [Scenario.flight_call; Scenario.custom_call; Scenario.hotel_call]))))) /\
  occurrences "call_2"
    (request_ids
       (take 3 (messages (fst (Scenario.run
          (Some [Scenario.flight_call; Scenario.custom_call;
                 Scenario.hotel_call])))))) = 1%nat /\
  req_messages
    (second_request
       (messages (fst (Scenario.run
          (Some [Scenario.flight_call; Scenario.custom_call;
                 Scenario.hotel_call])))))
  = messages (fst (Scenario.run
      (Some [Scenario.flight_call; Scenario.custom_call; Scenario.hotel_call]))).
Proof.
  destruct (tool_results_match_requests
              Scenario.StringToNumber Scenario.ObjectToString
              Scenario.JSON_parse Scenario.JSON_stringify
              (Scenario.endpoint
                 (Some [Scenario.flight_call; Scenario.custom_call;
                        Scenario.hotel_call])))
    as [Hids Hsent].
  assert (Hsplit : exists content,
    messages (fst (Scenario.run
      (Some [Scenario.flight_call; Scenario.custom_call; Scenario.hotel_call])))
    = take 3 (messages (fst (Scenario.run
        (Some [Scenario.flight_call; Scenario.custom_call; Scenario.hotel_call]))))
      ++ ToolMessage "call_2" content :: []).
  { eexists. vm_compute. reflexivity. }
  destruct Hsplit as [content Hsplit].
  destruct (Hids _ _ _ _ Hsplit) as [Hin Hone].
  split; [exact Hin |].
  split; [apply Hone; vm_compute; compute_done |].
  apply Hsent; [vm_compute; right; left | reflexivity].
Defined.

(** C9, as the specification states it, fails: the first reply holds one
    invocation request, for a tool that is not registered; the dispatcher
    throws, the run ends with that error, and no second request is sent. *)
Lemma unknown_tool_no_synthesis_call :
  rm_tool_calls (ch_message (Scenario.selection (Some [Scenario.car_call])))
  = Some [Scenario.car_call] /\
  snd (Scenario.run (Some [Scenario.car_call]))
  = Throw (Error "Unknown tool: book_car") /\
  model_calls (trace (fst (Scenario.run (Some [Scenario.car_call]))))
  = [first_request] /\
  tool_result_ids (messages (fst (Scenario.run (Some [Scenario.car_call])))) = [].
Proof. repeat split. Qed.

Lemma synthesis_call_after_tools_witness :
  exists results before after,
    Forall2 (answers Scenario.StringToNumber Scenario.ObjectToString
               Scenario.JSON_parse Scenario.JSON_stringify)
      (filter invocable [Scenario.flight_call; Scenario.hotel_call]) results /\
    messages (fst (Scenario.run (Some [Scenario.flight_call; Scenario.hotel_call])))
    = [UserMessage userQuery;
       AssistantMessage (ch_message (Scenario.selection
          (Some [Scenario.flight_call; Scenario.hotel_call])))] ++ results /\
    trace (fst (Scenario.run (Some [Scenario.flight_call; Scenario.hotel_call])))
    = before ++
      ModelCall (second_request
        ([UserMessage userQuery;
          AssistantMessage (ch_message (Scenario.selection
             (Some [Scenario.flight_call; Scenario.hotel_call])))] ++ results))
      :: after /\
    model_calls before = [first_request] /\
    model_calls after = [].
Proof.
  destruct (synthesis_call_after_tools
              Scenario.StringToNumber Scenario.ObjectToString
              Scenario.JSON_parse Scenario.JSON_stringify
              (Scenario.endpoint (Some [Scenario.flight_call; Scenario.hotel_call]))
              {| choices := [Scenario.selection
                   (Some [Scenario.flight_call; Scenario.hotel_call])] |}
              (Scenario.selection (Some [Scenario.flight_call; Scenario.hotel_call]))
              []
              [Scenario.flight_call; Scenario.hotel_call]
              eq_refl eq_refl eq_refl ltac:(discriminate) eq_refl)
    as (results & before & after & H1 & H2 & H3 & H4 & _ & H6 & _).
  exists results, before, after. auto.
Defined.

(** * Negated numbers *)

Module NumberSigns.

Lemma binary_round_aux_opp (s : bool) (m e : Z) (l : location) :
  binary_round_aux prec emax (negb s) m e l
  = SFopp (binary_round_aux prec emax s m e l).
Proof.
  unfold binary_round_aux.
  destruct (shr_fexp prec emax m e l) as [mrs1 e1].
  destruct (shr_fexp prec emax _ e1 loc_Exact) as [mrs2 e2].
  destruct (shr_m mrs2) as [| q | q]; [reflexivity | | reflexivity].
  destruct (Z.leb e2 (emax - prec)); reflexivity.
Qed.

(** [x * (-y)] is [-(x * y)], for all numbers. *)
Lemma xorb_negb (a b : bool) : xorb a (negb b) = negb (xorb a b).
Proof. destruct a, b; reflexivity. Qed.

Lemma mul_opp_r (x y : number) : mul x (SFopp y) = SFopp (mul x y).
Proof.
  destruct x as [sx | sx | | sx mx ex], y as [sy | sy | | sy my ey];
    try reflexivity;
    try (simpl; rewrite xorb_negb; reflexivity).
  unfold mul, SFmul, SFopp at 1.
  rewrite xorb_negb. apply binary_round_aux_opp.
Qed.

Lemma of_Z_opp (n : Z) : n <> 0 -> of_Z (- n) = SFopp (of_Z n).
Proof.
  intros Hn. destruct n as [| p | p]; [congruence | |].
  - change (- Zpos p) with (Zneg p).
    unfold of_Z, binary_normalize, binary_round.
    destruct (shl_align p 0 _) as [mz ez].
    apply (binary_round_aux_opp false).
  - change (- Zneg p) with (Zpos p).
    unfold of_Z, binary_normalize, binary_round.
    destruct (shl_align p 0 _) as [mz ez].
    rewrite (binary_round_aux_opp false).
    destruct (binary_round_aux prec emax false (Zpos mz) ez loc_Exact)
      as [[] | [] | | [] ? ?]; reflexivity.
Qed.

Lemma exact_Z_opp (x : number) : exact_Z (SFopp x) = Z.opp <$> exact_Z x.
Proof.
  destruct x as [s | s | | s m e]; try reflexivity.
  unfold SFopp, exact_Z.
  set (v := if s then Zneg m else Zpos m).
  replace (if negb s then Zneg m else Zpos m) with (- v)
    by (unfold v; destruct s; reflexivity).
  destruct e as [| p | p].
  - simpl. f_equal. lia.
  - simpl fmap. f_equal. lia.
  - assert (Hpos : 0 < 2 ^ Zpos p) by (apply Z.pow_pos_nonneg; lia).
    destruct (Z.eqb_spec (v mod 2 ^ Zpos p) 0) as [Hz | Hnz].
    + apply Z.mod_divide in Hz as [k Hk]; [| lia].
      rewrite Hk, <- Z.mul_opp_l, !Z.mod_mul, !Z.div_mul by lia. reflexivity.
    + destruct (Z.eqb_spec (- v mod 2 ^ Zpos p) 0) as [Hz' | _]; [| reflexivity].
      exfalso. apply Hnz.
      apply Z.mod_divide in Hz' as [k Hk]; [| lia].
      replace v with (- k * 2 ^ Zpos p) by lia. apply Z.mod_mul. lia.
Qed.

End NumberSigns.

(** * More on the tools and the dispatcher *)

Section MoreToolFacts.

Variable StringToNumber : string -> number.
Variable ObjectToString : value -> option string.

Local Abbreviation to_number := (ToNumber StringToNumber ObjectToString).
Local Abbreviation hotel := (getHotelBooking StringToNumber ObjectToString).
Local Abbreviation convert := (convertCurrency StringToNumber ObjectToString).
Local Abbreviation execute := (executeTool StringToNumber ObjectToString).

Lemma catalog_names (name : string) :
  name ∈ map td_name tools <->
  name = "get_flight_schedule" \/ name = "get_hotel_booking"
  \/ name = "convert_currency".
Proof.
  change (map td_name tools)
    with ["get_flight_schedule"; "get_hotel_booking"; "convert_currency"].
  rewrite !elem_of_cons, elem_of_nil. tauto.
Qed.

(** The conversion to a number throws for an array or object that has no
    string, and for nothing else; its error is a [TypeError]. *)
Lemma ToNumber_throws (v : value) (e : exn) :
  to_number v = Throw e -> e = TypeError /\ ObjectToString v = None.
Proof.
  destruct v as [| | [] | x | s | l | l]; simpl; try discriminate;
    destruct (ObjectToString _); try discriminate; intros [= <-]; auto.
Qed.

Lemma hotel_throws (city nights : value) (e : exn) :
  hotel city nights = Throw e -> e = TypeError /\ ObjectToString nights = None.
Proof.
  unfold getHotelBooking.
  destruct (to_number nights) as [x | e'] eqn:Hn; simpl; [discriminate |].
  intros [= <-]. exact (ToNumber_throws nights e' Hn).
Qed.

Lemma convert_throws (amount from to : value) (e : exn) :
  convert amount from to = Throw e ->
  e = TypeError /\ ObjectToString amount = None.
Proof.
  unfold convertCurrency.
  destruct (to_number amount) as [x | e'] eqn:Hn; simpl; [discriminate |].
  intros [= <-]. exact (ToNumber_throws amount e' Hn).
Qed.

(** X1. On an argument mapping, the dispatcher throws the "Unknown tool"
    error exactly for the names the Tool Catalog does not announce to the
    model: no announced tool is missing from the switch, and no tool of the
    switch is unannounced. *)
Theorem dispatched_names_are_catalog_names (name : string)
    (props : list (string * value)) :
  execute name (VObject props) = Throw (Error ("Unknown tool: " +:+ name)) <->
  name ∉ map td_name tools.
Proof.
  rewrite catalog_names. unfold executeTool.
  destruct (String.eqb_spec name "get_flight_schedule") as [-> | N1].
  { split; [discriminate | tauto]. }
  destruct (String.eqb_spec name "get_hotel_booking") as [-> | N2].
  { split; [| tauto]. simpl. unfold map_outcome.
    destruct (hotel _ _) as [r | e] eqn:H; simpl; [discriminate |].
    intros [= ->]. apply hotel_throws in H as [H _]. discriminate. }
  destruct (String.eqb_spec name "convert_currency") as [-> | N3].
  { split; [| tauto]. simpl. unfold map_outcome.
    destruct (convert _ _ _) as [r | e] eqn:H; simpl; [discriminate |].
    intros [= ->]. apply convert_throws in H as [H _]. discriminate. }
  split; [tauto | reflexivity].
Qed.

(** X2. The result of a tool of the catalog depends on the parameters the
    catalog declares as required for it, and on nothing else in the
    argument mapping: two mappings that agree on them give the same
    outcome. *)
Theorem dispatch_reads_required_parameters (d : tool_descriptor)
    (props props' : list (string * value)) :
  d ∈ tools ->
  (forall k, k ∈ td_required d -> own_property props k = own_property props' k) ->
  execute (td_name d) (VObject props) = execute (td_name d) (VObject props').
Proof.
  intros Hd Hagree. unfold tools in Hd.
  assert (Hk : forall k, bool_decide (k ∈ td_required d) = true ->
                         own_property props k = own_property props' k).
  { intros k Hin. apply Hagree. exact (bool_decide_eq_true_1 _ Hin). }
  apply elem_of_cons in Hd as [-> | Hd]; [| apply elem_of_cons in Hd as [-> | Hd];
    [| apply list_elem_of_singleton in Hd as ->]];
    cbn [td_name td_required] in *; unfold executeTool; simpl String.eqb; cbv iota;
    unfold get_property, bind_outcome.
  - rewrite (Hk "origin" eq_refl), (Hk "destination" eq_refl),
      (Hk "tripType" eq_refl). reflexivity.
  - rewrite (Hk "city" eq_refl), (Hk "nights" eq_refl). reflexivity.
  - rewrite (Hk "amount" eq_refl), (Hk "from" eq_refl), (Hk "to" eq_refl).
    reflexivity.
Qed.

(** X3. On [null] (and on [undefined]) in place of the argument mapping,
    every tool of the catalog fails with a [TypeError], raised by the first
    property read, and no tool runs. *)
Theorem dispatch_null_arguments (name : string) :
  name ∈ map td_name tools ->
  execute name VNull = Throw TypeError /\
  execute name VUndefined = Throw TypeError.
Proof.
  rewrite catalog_names. intros [-> | [-> | ->]]; split; reflexivity.
Qed.

(** X4. A parameter missing from the argument mapping is no error: the
    tool runs with [undefined]. Without [nights] the hotel total is [NaN],
    without [amount] the converted amount is [NaN], and without [tripType]
    the flight is priced one-way. *)
Theorem dispatch_missing_parameter (props : list (string * value)) :
  (own_property props "nights" = VUndefined ->
   exists r, execute "get_hotel_booking" (VObject props) = Return (HotelResult r) /\
             costPerNightUSD r = of_Z 120 /\ totalHotelCostUSD r = NaN) /\
  (own_property props "amount" = VUndefined ->
   exists r, execute "convert_currency" (VObject props) = Return (CurrencyResult r) /\
             originalAmount r = VUndefined /\ convertedAmount r = NaN) /\
  (own_property props "tripType" = VUndefined ->
   exists r, execute "get_flight_schedule" (VObject props) = Return (FlightResult r) /\
             totalFlightTimeHours r = of_dyadic 11 (-1) /\
             totalCostUSD r = of_Z 420).
Proof.
  split; [| split]; intros H; unfold executeTool; simpl String.eqb; cbv iota;
    unfold get_property, bind_outcome, map_outcome, bind_outcome,
      getHotelBooking, convertCurrency, getFlightSchedule, bind_outcome;
    rewrite H; eexists; (split; [reflexivity |]); split; reflexivity.
Qed.

(** X5. The dispatcher throws only two kinds of error. One is the "Unknown
    tool" error, carrying the name it was given, and then the name is none
    of the catalog. The other is a [TypeError], and then the name is of the
    catalog and either the arguments are [null] or [undefined], or the
    argument a tool multiplies ([nights] for the hotel lookup, [amount] for
    the conversion) is an array or object that has no conversion to a
    number. The flight lookup throws on [null] and [undefined] only. *)
Theorem dispatch_errors (name : string) (args : value) (e : exn) :
  execute name args = Throw e ->
  (e = Error ("Unknown tool: " +:+ name) /\ name ∉ map td_name tools) \/
  (e = TypeError /\ name ∈ map td_name tools /\
   (args = VNull \/ args = VUndefined \/
    exists v, ObjectToString v = None /\
      ((name = "get_hotel_booking" /\ get_property args "nights" = Return v) \/
       (name = "convert_currency" /\ get_property args "amount" = Return v)))).
Proof.
  rewrite catalog_names. unfold executeTool.
  destruct (String.eqb_spec name "get_flight_schedule") as [-> | N1].
  { destruct args; simpl; intros [= <-] || discriminate; right; auto. }
  destruct (String.eqb_spec name "get_hotel_booking") as [-> | N2].
  { destruct (get_property args "city") as [city | e1] eqn:Hcity.
    2: { destruct args; try discriminate; injection Hcity as <-; simpl;
         intros [= <-]; right; auto. }
    destruct (get_property args "nights") as [nights | e2] eqn:Hnights.
    2: { destruct args; try discriminate. }
    simpl. unfold map_outcome.
    destruct (hotel city nights) as [r | e'] eqn:H; simpl; [discriminate |].
    intros [= <-]. apply hotel_throws in H as [-> Hnone].
    right. split; [reflexivity |]. split; [auto |].
    right. right. exists nights. auto. }
  destruct (String.eqb_spec name "convert_currency") as [-> | N3].
  { destruct (get_property args "amount") as [amount | e1] eqn:Hamount.
    2: { destruct args; try discriminate; injection Hamount as <-; simpl;
         intros [= <-]; right; auto 6. }
    destruct (get_property args "from") as [from | e2] eqn:Hfrom.
    2: { destruct args; try discriminate. }
    destruct (get_property args "to") as [to | e3] eqn:Hto.
    2: { destruct args; try discriminate. }
    simpl. unfold map_outcome.
    destruct (convert amount from to) as [r | e'] eqn:H; simpl; [discriminate |].
    intros [= <-]. apply convert_throws in H as [-> Hnone].
    right. split; [reflexivity |]. split; [auto |].
    right. right. exists amount. auto. }
  intros [= <-]. left. split; [reflexivity | tauto].
Qed.

(** X6. Negating the number of nights negates the total, for every number:
    the hotel lookup does not reject a negative stay. *)
Theorem hotel_negated_nights (city : value) (nights : number) :
  exists r r',
    hotel city (VNumber nights) = Return r /\
    hotel city (VNumber (SFopp nights)) = Return r' /\
    totalHotelCostUSD r' = SFopp (totalHotelCostUSD r) /\
    costPerNightUSD r' = of_Z 120.
Proof.
  eexists _, _. split; [reflexivity |]. split; [reflexivity |].
  split; [| reflexivity].
  cbv beta iota zeta delta [totalHotelCostUSD].
  apply NumberSigns.mul_opp_r.
Qed.

(** X7. For a whole number of nights [n] of either sign with
    [15 * |n| < 2^53], the total is exactly [120 * n]: a negative stay gets
    a negative price. *)
Theorem hotel_total_exact_signed (city : value) (n : Z) :
  15 * Z.abs n < 2 ^ 53 ->
  exists r,
    hotel city (VNumber (of_Z n)) = Return r /\
    exact_Z (of_Z n) = Some n /\
    exact_Z (totalHotelCostUSD r) = Some (120 * n).
Proof.
  intros Hlt. eexists. split; [reflexivity |].
  cbv beta iota zeta delta [totalHotelCostUSD].
  destruct (Z.le_gt_cases 0 n) as [Hpos | Hneg].
  - rewrite Z.abs_eq in Hlt by exact Hpos.
    split; [apply NumberFacts.exact_Z_of_Z; lia |].
    rewrite NumberFacts.mul_120_of_Z by assumption.
    destruct n as [| p | p]; [reflexivity | | lia].
    replace (120 * Zpos p) with (Zpos (15 * p) * 2 ^ 3) by lia.
    apply NumberFacts.exact_Z_of_Z_shifted; lia.
  - rewrite Z.abs_neq in Hlt by lia.
    replace n with (- - n) at 1 2 3 by lia.
    rewrite !(NumberSigns.of_Z_opp (- n)) by lia.
    rewrite NumberSigns.mul_opp_r, !NumberSigns.exact_Z_opp.
    rewrite NumberFacts.exact_Z_of_Z by lia.
    rewrite NumberFacts.mul_120_of_Z by lia.
    split; [simpl; f_equal; lia |].
    destruct (- n) as [| p | p] eqn:Hp; [lia | | lia].
    replace (120 * Zpos p) with (Zpos (15 * p) * 2 ^ 3) by lia.
    rewrite NumberFacts.exact_Z_of_Z_shifted by lia.
    simpl. f_equal. lia.
Qed.

(** X8. Converting an amount and converting the result back, with the two
    codes exchanged, gives the amount and the codes one started from. *)
Theorem conversion_round_trip (amount : number) (from to : value) :
  is_double amount ->
  exists there back,
    convert (VNumber amount) from to = Return there /\
    convert (VNumber (convertedAmount there)) (cc_to there) (cc_from there)
    = Return back /\
    convertedAmount back = amount /\ cc_from back = to /\ cc_to back = from.
Proof.
  intros Hd. eexists _, _. split; [reflexivity |]. split; [reflexivity |].
  cbv beta iota zeta delta [convertedAmount cc_from cc_to].
  rewrite !(NumberFacts.mul_one amount Hd). auto.
Qed.

End MoreToolFacts.

(** * More on the orchestrator *)

Section MoreAgentFacts.

Variable StringToNumber : string -> number.
Variable ObjectToString : value -> option string.
Variable JSON_parse : string -> option value.
Variable JSON_stringify : value -> string.
Variable create : request -> outcome response.

Local Abbreviation execute := (executeTool StringToNumber ObjectToString).
Local Abbreviation iteration :=
  (process_call StringToNumber ObjectToString JSON_parse JSON_stringify).
Local Abbreviation loop :=
  (process_calls StringToNumber ObjectToString JSON_parse JSON_stringify).
Local Abbreviation gets_past :=
  (processable StringToNumber ObjectToString JSON_parse).
Local Abbreviation answer_of :=
  (answers StringToNumber ObjectToString JSON_parse JSON_stringify).
Local Abbreviation agent_run :=
  (runBookingAgent StringToNumber ObjectToString JSON_parse JSON_stringify create).

Lemma console_lines_app (a b : list event) :
  console_lines (a ++ b) = console_lines a ++ console_lines b.
Proof. apply omap_app. Qed.

Lemma answers_are_tool_messages (processed : list tool_call)
    (results : list message) :
  Forall2 answer_of processed results ->
  Forall (fun m => exists id content, m = ToolMessage id content) results /\
  length results = length processed.
Proof.
  induction 1 as [| call m processed results Ha _ [IH1 IH2]]; [split; [constructor | reflexivity] |].
  destruct Ha as (f & args & result & _ & _ & _ & ->).
  split; [constructor; eauto | simpl; congruence].
Qed.

Lemma processable_false (call : tool_call) :
  gets_past call = false ->
  tc_type call = "function" /\
  exists f, tc_function call = Some f /\
    (JSON_parse (fc_arguments f) = None \/
     exists args e, JSON_parse (fc_arguments f) = Some args /\
                    execute (fc_name f) args = Throw e).
Proof.
  unfold processable. destruct (tc_function call) as [f |] eqn:Hf; [| discriminate].
  destruct (skipped call) eqn:Hs; [discriminate |].
  apply (skipped_false call) in Hs as [Ht _]. simpl.
  intros H. split; [exact Ht |]. exists f. split; [reflexivity |].
  destruct (JSON_parse (fc_arguments f)) as [args |]; [| left; reflexivity].
  destruct (execute (fc_name f) args) as [r | e] eqn:He; [discriminate |].
  right. eauto.
Qed.

Lemma loop_all_skipped (calls : list tool_call) (st : state) :
  forallb skipped calls = true -> loop calls st = (st, Return tt).
Proof.
  induction calls as [| call rest IH]; intros H; [reflexivity |].
  simpl in H. apply andb_true_iff in H as [Hs Hrest].
  simpl. unfold bind.
  rewrite (process_call_skipped _ _ _ _ call st Hs). exact (IH Hrest).
Qed.

(** X9. Whatever the endpoint replies and however the run ends, the
    conversation is the user message alone, or the user message, one
    assistant message, and then tool-result messages only, no more of them
    than the assistant message holds invocation requests. *)
Theorem conversation_shape :
  let st := fst agent_run in
  messages st = [UserMessage userQuery] \/
  exists reply results,
    messages st = UserMessage userQuery :: AssistantMessage reply :: results /\
    Forall (fun m => exists id content, m = ToolMessage id content) results /\
    (length results <= length (default [] (rm_tool_calls reply)))%nat.
Proof.
  cbv zeta.
  destruct (create first_request) as [response1 | e] eqn:Hcreate.
  2: { rewrite (run_no_reply _ _ _ _ _ e Hcreate). left. reflexivity. }
  destruct (choices response1) as [| first others] eqn:Hchoices.
  { rewrite (run_no_choice _ _ _ _ _ response1 Hcreate Hchoices). left. reflexivity. }
  right. exists (ch_message first).
  destruct (rm_tool_calls (ch_message first)) as [calls |] eqn:Hcalls.
  2: { rewrite (run_direct _ _ _ _ _ response1 first others Hcreate Hchoices Hcalls).
       exists []. simpl. repeat split; [constructor | lia]. }
  rewrite (run_tool_calls _ _ _ _ _ response1 first others calls Hcreate Hchoices Hcalls).
  destruct (loop calls _) as [st2 o] eqn:Hloop.
  apply process_calls_run in Hloop
    as (executed & processed & results & evs
        & Hm & Htr & Hpp & Hpe & Ha & He & Hmc & Ho & Hall).
  simpl in Hm.
  destruct (answers_are_tool_messages processed results Ha) as [Htool Hlen].
  assert (Hbound : (length results <= length calls)%nat).
  { rewrite Hlen. apply prefix_length in Hpp, Hpe.
    pose proof (length_filter invocable calls). lia. }
  exists results.
  destruct o as [[] | e].
  - destruct (second_pass_effects create st2) as (after & Hm2 & _).
    rewrite Hm2, Hm. simpl. auto.
  - simpl. rewrite Hm. simpl. auto.
Qed.

(** X10. A run sends the model one request or two, never more: the first
    is always the request of the first pass, with the Tool Catalog and the
    automatic tool choice; a second one, if any, is the request of the
    second pass for the conversation the run ends with. *)
Theorem at_most_two_requests :
  let st := fst agent_run in
  model_calls (trace st) = [first_request] \/
  model_calls (trace st) = [first_request; second_request (messages st)].
Proof.
  cbv zeta.
  destruct (create first_request) as [response1 | e] eqn:Hcreate.
  2: { rewrite (run_no_reply _ _ _ _ _ e Hcreate). left. reflexivity. }
  destruct (choices response1) as [| first others] eqn:Hchoices.
  { rewrite (run_no_choice _ _ _ _ _ response1 Hcreate Hchoices). left. reflexivity. }
  destruct (rm_tool_calls (ch_message first)) as [calls |] eqn:Hcalls.
  2: { rewrite (run_direct _ _ _ _ _ response1 first others Hcreate Hchoices Hcalls).
       left. reflexivity. }
  rewrite (run_tool_calls _ _ _ _ _ response1 first others calls Hcreate Hchoices Hcalls).
  destruct (loop calls _) as [st2 o] eqn:Hloop.
  apply process_calls_run in Hloop
    as (executed & processed & results & evs
        & Hm & Htr & Hpp & Hpe & Ha & He & Hmc & Ho & Hall).
  simpl in Htr.
  assert (Hfirst : model_calls (trace st2) = [first_request]).
  { rewrite Htr. simpl. fold (model_calls evs). rewrite Hmc. reflexivity. }
  destruct o as [[] | e]; [| left; exact Hfirst].
  destruct (second_pass_effects create st2) as (after & Hm2 & Ht2 & Hmc2 & _).
  right. rewrite Ht2, Hm2, model_calls_app, Hfirst. simpl.
  fold (model_calls after). rewrite Hmc2. reflexivity.
Qed.

(** X13. The loop stops at the first entry that fails: the entries after
    it are never looked at, so the loop does on the whole list what it does
    on the list cut after that entry. *)
Theorem entries_after_failure_ignored (before rest : list tool_call)
    (failing : tool_call) (st : state) :
  gets_past failing = false ->
  loop (before ++ failing :: rest) st = loop (before ++ [failing]) st.
Proof.
  intros Hfail.
  apply processable_false in Hfail as (Ht & f & Hf & Hcause).
  rewrite !process_calls_app. unfold bind.
  destruct (loop before st) as [st1 [[] | e]]; [| reflexivity].
  simpl. unfold bind.
  rewrite (process_call_invocable _ _ _ _ failing f st1 Ht Hf).
  destruct Hcause as [-> | (args & e & -> & He)]; [reflexivity |].
  cbv zeta. rewrite He. reflexivity.
Qed.

(** X14. An entry that fails appends nothing to the conversation and sends
    nothing to the model. When its payload does not parse, the error is a
    [SyntaxError] and the dispatcher is not called; otherwise the
    dispatcher is called once, on the parsed payload, and the error is the
    one it raised. *)
Theorem failed_invocation_effects (call : tool_call) (st : state) :
  gets_past call = false ->
  exists f st' e,
    tc_function call = Some f /\
    iteration call st = (st', Throw e) /\
    messages st' = messages st /\
    model_calls (trace st') = model_calls (trace st) /\
    match JSON_parse (fc_arguments f) with
    | None =>
        e = SyntaxError /\
        tool_executions (trace st') = tool_executions (trace st)
    | Some args =>
        execute (fc_name f) args = Throw e /\
        tool_executions (trace st')
        = tool_executions (trace st) ++ [(fc_name f, args)]
    end.
Proof.
  intros Hfail.
  apply processable_false in Hfail as (Ht & f & Hf & Hcause).
  exists f.
  rewrite (process_call_invocable _ _ _ _ call f st Ht Hf).
  destruct Hcause as [Hparse | (args & e & Hparse & He)]; rewrite Hparse.
  - eexists _, _. split; [exact Hf |]. split; [reflexivity |].
    simpl. rewrite model_calls_app, tool_executions_app, !app_nil_r. auto.
  - cbv zeta. rewrite He.
    eexists _, _. split; [exact Hf |]. split; [reflexivity |].
    simpl. rewrite model_calls_app, tool_executions_app. simpl.
    rewrite app_nil_r. auto.
Qed.

(** X15. When every invocation of the first reply is processed and the
    second reply has a choice, the run returns and the last line on the
    console, the answer it surfaces, is the content of that choice. *)
Theorem final_answer_surfaced (response1 : response) (first : choice)
    (others : list choice) (calls : list tool_call) :
  create first_request = Return response1 ->
  choices response1 = first :: others ->
  rm_tool_calls (ch_message first) = Some calls ->
  forallb gets_past calls = true ->
  exists results,
    Forall2 answer_of (filter invocable calls) results /\
    forall response2 final others2,
      create (second_request
                ([UserMessage userQuery; AssistantMessage (ch_message first)]
                 ++ results)) = Return response2 ->
      choices response2 = final :: others2 ->
      snd agent_run = Return tt /\
      final_output (trace (fst agent_run))
      = Some [content_value (rm_content (ch_message final))].
Proof.
  intros Hcreate Hchoices Hcalls Hproc.
  rewrite (run_tool_calls _ _ _ _ _ response1 first others calls Hcreate Hchoices Hcalls).
  destruct (loop calls _) as [st2 o] eqn:Hloop.
  apply process_calls_run in Hloop
    as (executed & processed & results & evs
        & Hm & Htr & Hpp & Hpe & Ha & He & Hmc & Ho & Hall).
  simpl in Hm.
  apply Ho in Hproc. subst o. specialize (Hall eq_refl). subst processed.
  exists results. split; [exact Ha |].
  intros response2 final others2 Hcreate2 Hchoices2.
  unfold second_pass. rewrite Hm. cbn [app] in Hcreate2 |- *. rewrite Hcreate2.
  unfold first_choice. rewrite Hchoices2. simpl.
  split; [reflexivity |].
  unfold final_output. rewrite !console_lines_app. simpl.
  apply last_snoc.
Qed.

(** X16. When the first request fails, or its reply has no choice, the run
    ends at once with that failure (a [TypeError] for the missing choice):
    nothing is printed, nothing is appended to the conversation, no tool
    runs and no second request is sent. *)
Theorem first_pass_failure :
  let st := fst agent_run in
  (forall e, create first_request = Throw e ->
     snd agent_run = Throw e /\
     messages st = [UserMessage userQuery] /\ console_lines (trace st) = [] /\
     tool_executions (trace st) = [] /\ model_calls (trace st) = [first_request]) /\
  (forall response1, create first_request = Return response1 ->
     choices response1 = [] ->
     snd agent_run = Throw TypeError /\
     messages st = [UserMessage userQuery] /\ console_lines (trace st) = [] /\
     tool_executions (trace st) = [] /\ model_calls (trace st) = [first_request]).
Proof.
  cbv zeta. split.
  - intros e H. rewrite (run_no_reply _ _ _ _ _ e H). repeat split.
  - intros response1 H Hc. rewrite (run_no_choice _ _ _ _ _ response1 H Hc).
    repeat split.
Qed.

(** X17. When the first reply has a list of invocation requests and every
    entry of it is skipped (the empty list included), no tool runs and no
    tool-result message is appended, and the second request is sent all the
    same, for the user message and the assistant reply alone. *)
Theorem all_entries_skipped (response1 : response) (first : choice)
    (others : list choice) (calls : list tool_call) :
  create first_request = Return response1 ->
  choices response1 = first :: others ->
  rm_tool_calls (ch_message first) = Some calls ->
  forallb skipped calls = true ->
  let st := fst agent_run in
  messages st = [UserMessage userQuery; AssistantMessage (ch_message first)] /\
  tool_executions (trace st) = [] /\
  model_calls (trace st)
  = [first_request;
     second_request
       [UserMessage userQuery; AssistantMessage (ch_message first)]].
Proof.
  intros Hcreate Hchoices Hcalls Hskip. cbv zeta.
  rewrite (run_tool_calls _ _ _ _ _ response1 first others calls Hcreate Hchoices Hcalls).
  rewrite (loop_all_skipped calls _ Hskip).
  match goal with |- context [second_pass create ?s] =>
    destruct (second_pass_effects create s) as (after & Hm2 & Ht2 & Hmc2 & Hte2) end.
  rewrite Hm2, Ht2. simpl.
  fold (model_calls after). fold (tool_executions after).
  rewrite Hmc2, Hte2. auto.
Qed.

End MoreAgentFacts.

(** ** The extra properties on the run to test with *)

Lemma dispatched_names_are_catalog_names_witness :
  "book_car" ∉ map td_name tools.
Proof.
  apply (dispatched_names_are_catalog_names
           Scenario.StringToNumber Scenario.ObjectToString
           "book_car" [("city", VString "Nairobi")]).
  reflexivity.
Defined.

Lemma dispatch_reads_required_parameters_witness :
  executeTool Scenario.StringToNumber Scenario.ObjectToString "get_hotel_booking"
    (VObject [("city", VString "Nairobi"); ("nights", VNumber (of_Z 3));
              ("breakfast", VBool true)])
  = executeTool Scenario.StringToNumber Scenario.ObjectToString "get_hotel_booking"
      (VObject [("nights", VNumber (of_Z 3)); ("city", VString "Nairobi")]).
Proof.
  apply (dispatch_reads_required_parameters
           Scenario.StringToNumber Scenario.ObjectToString
           {| td_type := "function";
              td_name := "get_hotel_booking";
              td_description := "Returns hotel cost per night in USD";
              td_properties :=
                [ {| p_name := "city"; p_type := "string"; p_enum := None |};
                  {| p_name := "nights"; p_type := "number"; p_enum := None |} ];
              td_required := ["city"; "nights"] |}).
  - right. left.
  - intros k Hk. cbn [td_required] in Hk.
    apply elem_of_cons in Hk as [-> | Hk]; [reflexivity |].
    apply list_elem_of_singleton in Hk as ->. reflexivity.
Defined.

Lemma dispatch_null_arguments_witness :
  executeTool Scenario.StringToNumber Scenario.ObjectToString
    "convert_currency" VNull = Throw TypeError /\
  executeTool Scenario.StringToNumber Scenario.ObjectToString
    "convert_currency" VUndefined = Throw TypeError.
Proof.
  apply (dispatch_null_arguments Scenario.StringToNumber Scenario.ObjectToString
           "convert_currency").
  right. right. left.
Defined.

Lemma dispatch_missing_parameter_witness :
  exists r,
    executeTool Scenario.StringToNumber Scenario.ObjectToString
      "get_hotel_booking" (VObject [("city", VString "Nairobi")])
    = Return (HotelResult r) /\
    costPerNightUSD r = of_Z 120 /\ totalHotelCostUSD r = NaN.
Proof.
  destruct (dispatch_missing_parameter
              Scenario.StringToNumber Scenario.ObjectToString
              [("city", VString "Nairobi")]) as [Hhotel _].
  exact (Hhotel eq_refl).
Defined.

Lemma dispatch_errors_witness :
  (TypeError = Error ("Unknown tool: " +:+ "get_hotel_booking") /\
   "get_hotel_booking" ∉ map td_name tools) \/
  (TypeError = TypeError /\ "get_hotel_booking" ∈ map td_name tools /\
   (VObject [("nights", Scenario.unconvertible)] = VNull \/
    VObject [("nights", Scenario.unconvertible)] = VUndefined \/
    exists v, Scenario.ObjectToString v = None /\
      (("get_hotel_booking" = "get_hotel_booking" /\
        get_property (VObject [("nights", Scenario.unconvertible)]) "nights"
        = Return v) \/
       ("get_hotel_booking" = "convert_currency" /\
        get_property (VObject [("nights", Scenario.unconvertible)]) "amount"
        = Return v)))).
Proof.
  apply (dispatch_errors Scenario.StringToNumber Scenario.ObjectToString
           "get_hotel_booking" (VObject [("nights", Scenario.unconvertible)])
           TypeError).
  reflexivity.
Defined.

Lemma hotel_total_exact_signed_witness :
  exists r,
    getHotelBooking Scenario.StringToNumber Scenario.ObjectToString
      (VString "Nairobi") (VNumber (of_Z (-2))) = Return r /\
    exact_Z (of_Z (-2)) = Some (-2) /\
    exact_Z (totalHotelCostUSD r) = Some (120 * -2).
Proof.
  apply (hotel_total_exact_signed Scenario.StringToNumber Scenario.ObjectToString
           (VString "Nairobi") (-2)).
  simpl. lia.
Defined.

Lemma conversion_round_trip_witness :
  exists there back,
    convertCurrency Scenario.StringToNumber Scenario.ObjectToString
      (VNumber (of_dyadic 2401 (-1))) (VString "USD") (VString "KES")
    = Return there /\
    convertCurrency Scenario.StringToNumber Scenario.ObjectToString
      (VNumber (convertedAmount there)) (cc_to there) (cc_from there)
    = Return back /\
    convertedAmount back = of_dyadic 2401 (-1) /\
    cc_from back = VString "KES" /\ cc_to back = VString "USD".
Proof.
  apply (conversion_round_trip Scenario.StringToNumber Scenario.ObjectToString
           (of_dyadic 2401 (-1)) (VString "USD") (VString "KES")).
  reflexivity.
Defined.

Lemma direct_response_witness :
  snd (Scenario.run None) = Return tt /\
  tool_executions (trace (fst (Scenario.run None))) = [] /\
  model_calls (trace (fst (Scenario.run None))) = [first_request] /\
  final_output (trace (fst (Scenario.run None)))
  = Some [content_value (rm_content (ch_message (Scenario.selection None)))].
Proof.
  apply (direct_response Scenario.StringToNumber Scenario.ObjectToString
           Scenario.JSON_parse Scenario.JSON_stringify (Scenario.endpoint None)
           {| choices := [Scenario.selection None] |} (Scenario.selection None) []);
    reflexivity.
Defined.

Lemma abort_before_second_pass_witness :
  (exists e, snd (Scenario.run (Some [Scenario.flight_call; Scenario.car_call])) = Throw e) /\
  model_calls (trace (fst (Scenario.run (Some [Scenario.flight_call; Scenario.car_call]))))
  = [first_request].
Proof.
  apply (abort_before_second_pass Scenario.StringToNumber Scenario.ObjectToString
           Scenario.JSON_parse Scenario.JSON_stringify
           (Scenario.endpoint (Some [Scenario.flight_call; Scenario.car_call]))
           {| choices := [Scenario.selection
                (Some [Scenario.flight_call; Scenario.car_call])] |}
           (Scenario.selection (Some [Scenario.flight_call; Scenario.car_call]))
           [] [Scenario.flight_call; Scenario.car_call]);
    reflexivity.
Defined.

Lemma entries_after_failure_ignored_witness :
  process_calls Scenario.StringToNumber Scenario.ObjectToString
    Scenario.JSON_parse Scenario.JSON_stringify
    ([Scenario.flight_call] ++ Scenario.car_call :: [Scenario.hotel_call])
    initial_state
  = process_calls Scenario.StringToNumber Scenario.ObjectToString
      Scenario.JSON_parse Scenario.JSON_stringify
      ([Scenario.flight_call] ++ [Scenario.car_call]) initial_state.
Proof.
  apply (entries_after_failure_ignored
           Scenario.StringToNumber Scenario.ObjectToString
           Scenario.JSON_parse Scenario.JSON_stringify
           [Scenario.flight_call] [Scenario.hotel_call] Scenario.car_call
           initial_state).
  reflexivity.
Defined.

Lemma failed_invocation_effects_witness :
  exists f st' e,
    tc_function Scenario.car_call = Some f /\
    process_call Scenario.StringToNumber Scenario.ObjectToString
      Scenario.JSON_parse Scenario.JSON_stringify Scenario.car_call initial_state
    = (st', Throw e) /\
    messages st' = messages initial_state /\
    model_calls (trace st') = model_calls (trace initial_state) /\
    match Scenario.JSON_parse (fc_arguments f) with
    | None =>
        e = SyntaxError /\
        tool_executions (trace st') = tool_executions (trace initial_state)
    | Some args =>
        executeTool Scenario.StringToNumber Scenario.ObjectToString
          (fc_name f) args = Throw e /\
        tool_executions (trace st')
        = tool_executions (trace initial_state) ++ [(fc_name f, args)]
    end.
Proof.
  apply (failed_invocation_effects
           Scenario.StringToNumber Scenario.ObjectToString
           Scenario.JSON_parse Scenario.JSON_stringify
           Scenario.car_call initial_state).
  reflexivity.
Defined.

Lemma final_answer_surfaced_witness :
  snd (Scenario.run (Some [Scenario.flight_call; Scenario.hotel_call])) = Return tt /\
  final_output
    (trace (fst (Scenario.run (Some [Scenario.flight_call; Scenario.hotel_call]))))
  = Some [VString Scenario.answer].
Proof.
  destruct (final_answer_surfaced
              Scenario.StringToNumber Scenario.ObjectToString
              Scenario.JSON_parse Scenario.JSON_stringify
              (Scenario.endpoint (Some [Scenario.flight_call; Scenario.hotel_call]))
              {| choices := [Scenario.selection
                   (Some [Scenario.flight_call; Scenario.hotel_call])] |}
              (Scenario.selection (Some [Scenario.flight_call; Scenario.hotel_call]))
              []
              [Scenario.flight_call; Scenario.hotel_call]
              eq_refl eq_refl eq_refl eq_refl)
    as (results & _ & Hfinal).
  exact (Hfinal {| choices := [Scenario.synthesis] |} Scenario.synthesis []
           eq_refl eq_refl).
Defined.

Lemma first_pass_failure_witness :
  snd (runBookingAgent Scenario.StringToNumber Scenario.ObjectToString
         Scenario.JSON_parse Scenario.JSON_stringify (fun _ => Throw APIError))
  = Throw APIError /\
  snd (runBookingAgent Scenario.StringToNumber Scenario.ObjectToString
         Scenario.JSON_parse Scenario.JSON_stringify
         (fun _ => Return {| choices := [] |}))
  = Throw TypeError.
Proof.
  split.
  - destruct (first_pass_failure
                Scenario.StringToNumber Scenario.ObjectToString
                Scenario.JSON_parse Scenario.JSON_stringify
                (fun _ => Throw APIError)) as [Hfail _].
    exact (proj1 (Hfail APIError eq_refl)).
  - destruct (first_pass_failure
                Scenario.StringToNumber Scenario.ObjectToString
                Scenario.JSON_parse Scenario.JSON_stringify
                (fun _ => Return {| choices := [] |})) as [_ Hempty].
    exact (proj1 (Hempty {| choices := [] |} eq_refl eq_refl)).
Defined.

Lemma all_entries_skipped_witness :
  messages (fst (Scenario.run (Some [Scenario.custom_call])))
  = [UserMessage userQuery;
     AssistantMessage (ch_message (Scenario.selection (Some [Scenario.custom_call])))] /\
  tool_executions (trace (fst (Scenario.run (Some [Scenario.custom_call])))) = [] /\
  model_calls (trace (fst (Scenario.run (Some [Scenario.custom_call]))))
  = [first_request;
     second_request
       [UserMessage userQuery;
        AssistantMessage
          (ch_message (Scenario.selection (Some [Scenario.custom_call])))]].
Proof.
  apply (all_entries_skipped
           Scenario.StringToNumber Scenario.ObjectToString
           Scenario.JSON_parse Scenario.JSON_stringify
           (Scenario.endpoint (Some [Scenario.custom_call]))
           {| choices := [Scenario.selection (Some [Scenario.custom_call])] |}
           (Scenario.selection (Some [Scenario.custom_call])) []
           [Scenario.custom_call]);
    reflexivity.
Defined.
